(** * axescache: a render cache for one matplotlib Axes

    Shallow embedding of [axescache.py] (classes [RenderCapture] and
    [AxesCache]) and the properties of its specification.

    The module is effectful Python: it calls into matplotlib, it mutates
    the axes it manages and it may raise.  The embedding is an explicit
    state-and-exception monad: a computation takes the current state and
    returns a result (a value or a raised exception) with the state it
    leaves behind, so that what was mutated before an exception stays
    mutated, as in Python.

    matplotlib itself (the full draw of an axes, the drawing of an
    artist) is not part of the module: it is taken as a parameter
    [exec], an arbitrary function from a library call and a host state to
    a result and a new host state.  Floating-point coordinates are
    idealised: data-space coordinates are an arbitrary type [Data],
    device coordinates are rationals. *)

From Stdlib Require Import ZArith QArith Qabs List String Bool Lia.
From Stdlib Require Import Init.Byte.
Import ListNotations.

Local Open Scope Z_scope.

Set Implicit Arguments.

(** ** Python and numpy sequences *)

Module Py.

(** Exceptions the module itself can raise, and those of the host. *)
Inductive Exn : Type :=
| IndexError
| ValueError
| HostError (code : nat).

Inductive res (A : Type) : Type :=
| Ok (a : A)
| Raise (e : Exn).

Arguments Ok {A} a.
Arguments Raise {A} e.

Definition is_ok {A} (r : res A) : bool :=
  match r with Ok _ => true | Raise _ => false end.

(** [np.arange(a, b)] on integers: a, a+1, ..., b-1. *)
Fixpoint arange_from (a : Z) (n : nat) : list Z :=
  match n with
  | O => []
  | S n' => a :: arange_from (a + 1) n'
  end.

Definition arange (a b : Z) : list Z := arange_from a (Z.to_nat (b - a)).

(** [l[i]]: a negative index counts from the end; out of range raises
    IndexError. *)
Definition index {A} (l : list A) (i : Z) : res A :=
  let n := Z.of_nat (List.length l) in
  let j := if i <? 0 then i + n else i in
  if (0 <=? j) && (j <? n)
  then match nth_error l (Z.to_nat j) with
       | Some x => Ok x
       | None => Raise IndexError
       end
  else Raise IndexError.

(** A slice bound: negative bounds count from the end, and the result is
    clipped to the sequence. *)
Definition clip (n i : Z) : Z :=
  let j := if i <? 0 then i + n else i in
  Z.max 0 (Z.min n j).

(** [l[i:j]]. *)
Definition slice {A} (l : list A) (i j : Z) : list A :=
  let n := Z.of_nat (List.length l) in
  let a := clip n i in
  let b := clip n j in
  firstn (Z.to_nat (b - a)) (skipn (Z.to_nat a) l).

(** [astype(np.int)] on a float: truncation toward zero. *)
Definition astype_int (q : Q) : Z := Z.quot (Qnum q) (Zpos (Qden q)).

End Py.

Import Py.

(** ** Pixel buffers *)

Module Image.

(** One RGBA pixel: the last axis of the (height, width, 4) array. *)
Definition pixel : Type := (byte * byte * byte * byte)%type.

(** A (rows, columns, 4) array of uint8, top row first. *)
Definition image : Type := list (list pixel).

Definition channel0 (p : pixel) : byte :=
  let '(r, _, _, _) := p in r.

(** The first [k] groups of four bytes of a flat buffer. *)
Fixpoint pixels (k : nat) (l : list byte) : list pixel :=
  match k with
  | O => []
  | S k' =>
      match l with
      | r :: g :: b :: a :: t => (r, g, b, a) :: pixels k' t
      | _ => []
      end
  end.

(** [k] consecutive rows of [w] elements. *)
Fixpoint rows {A} (k w : nat) (l : list A) : list (list A) :=
  match k with
  | O => []
  | S k' => firstn w l :: rows k' w (skipn w l)
  end.

(** [buf.reshape((h, w, 4))]: ValueError unless the sizes agree. *)
Definition reshape (h w : Z) (buf : list byte) : res image :=
  if (0 <=? h) && (0 <=? w) && (Z.of_nat (List.length buf) =? h * w * 4)
  then Ok (rows (Z.to_nat h) (Z.to_nat w) (pixels (Z.to_nat (h * w)) buf))
  else Raise ValueError.

(** [im[r0:r1, c0:c1, :]]. *)
Definition crop (im : image) (r0 r1 c0 c1 : Z) : image :=
  map (fun row => slice row c0 c1) (slice im r0 r1).

(** [im[:, :, 0]]. *)
Definition first_channel (im : image) : list (list byte) :=
  map (map channel0) im.

(** Every row of [im] has [w] pixels and there are [h] rows. *)
Definition has_shape (im : image) (h w : Z) : Prop :=
  Z.of_nat (List.length im) = h /\
  Forall (fun row => Z.of_nat (List.length row) = w) im.

End Image.

Import Image.

(** ** The host: matplotlib objects the module reads and mutates *)

Section Model.

(** Data-space coordinates (floats in the source). *)
Variable Data : Type.

(** [axes.transData]: [transform] maps a data point to device pixels,
    [inverted] is [transData.inverted().transform]. *)
Record Transform : Type := {
  transform : Data * Data -> Q * Q;
  inverted : Q * Q -> Data * Data
}.

(** The mesh artist returned by [axes.pcolormesh(X, Y, C, cmap=...)];
    [mesh_id] is the identity of the Python object. *)
Record QuadMesh : Type := {
  mesh_id : nat;
  mesh_X : list Data;
  mesh_Y : list Data;
  mesh_C : list (list byte);
  mesh_cmap : string
}.

(** [matplotlib.image.AxesImage]: data and extent are unset until
    [set_data] and [set_extent] are called.  The record is the image
    object alone: what matplotlib does to the axes when an extent is set
    (data limits, and view limits of an autoscaled axes) is not part of
    it. *)
Record AxesImage : Type := {
  im_origin : string;
  im_interpolation : string;
  im_data : option image;
  im_extent : option (Data * Data * Data * Data)
}.

Definition AxesImage_new (origin interpolation : string) : AxesImage :=
  {| im_origin := origin; im_interpolation := interpolation;
     im_data := None; im_extent := None |}.

Definition set_data (A : image) (i : AxesImage) : AxesImage :=
  {| im_origin := im_origin i; im_interpolation := im_interpolation i;
     im_data := Some A; im_extent := im_extent i |}.

Definition set_extent (e : Data * Data * Data * Data) (i : AxesImage)
  : AxesImage :=
  {| im_origin := im_origin i; im_interpolation := im_interpolation i;
     im_data := im_data i; im_extent := Some e |}.

(** What [axes.draw] is bound to: the class method [Axes.draw], or the
    bound method [AxesCache.draw] once a cache has been attached. *)
Inductive DrawMethod : Type :=
| Axes_draw_method
| AxesCache_draw_method.

(** The callbacks this module registers: [lambda e: self.reset()]. *)
Inductive Handler : Type :=
| reset_lambda.

(** The axes.  [collections] holds the identities of the registered
    collection artists, [spines] is the ordered dict of spines. *)
Record Axes : Type := {
  xlim : Data * Data;
  ylim : Data * Data;
  xscale : string;
  yscale : string;
  transData : Transform;
  collections : list nat;
  spines : list (string * nat);
  axes_draw : DrawMethod
}.

(** The Agg renderer a draw request comes with. *)
Record Renderer : Type := {
  height : Z;
  width : Z;
  buffer_rgba : list byte
}.

Record Host : Type := {
  axes : Axes;
  renderer : Renderer;
  callbacks : list (string * Handler)
}.

(** A [RenderCapture] instance.  Its [axes] attribute is the one axes
    of the host. *)
Record RenderCapture : Type := {
  mesh : QuadMesh;
  im : AxesImage
}.

(** Calls into matplotlib that render. *)
Inductive Call : Type :=
| Axes_draw
| axesPatch_draw
| AxesImage_draw (i : AxesImage)
| QuadMesh_draw (m : QuadMesh)
| xaxis_draw
| yaxis_draw
| Spine_draw (key : string).

Definition is_Axes_draw (c : Call) : bool :=
  match c with Axes_draw => true | _ => false end.

Definition is_AxesImage_draw (c : Call) : bool :=
  match c with AxesImage_draw _ => true | _ => false end.

Definition is_QuadMesh_draw (c : Call) : bool :=
  match c with QuadMesh_draw _ => true | _ => false end.

(** The state: the host, the rendering calls made so far, and the
    [overview_img] attribute of the [AxesCache] instance. *)
Record State : Type := {
  host : Host;
  log : list Call;
  overview_img : option RenderCapture
}.

(** ** The monad *)

Definition M (A : Type) : Type := State -> res A * State.

Definition ret {A} (a : A) : M A := fun s => (Ok a, s).

Definition bind {A B} (m : M A) (k : A -> M B) : M B :=
  fun s =>
    match m s with
    | (Ok a, s') => k a s'
    | (Raise e, s') => (Raise e, s')
    end.

Definition lift {A} (r : res A) : M A := fun s => (r, s).

Definition get_host : M Host := fun s => (Ok (host s), s).

Definition put_axes (a : Axes) : M unit :=
  fun s =>
    (Ok tt,
     {| host := {| axes := a; renderer := renderer (host s);
                   callbacks := callbacks (host s) |};
        log := log s; overview_img := overview_img s |}).

Definition put_callbacks (cb : list (string * Handler)) : M unit :=
  fun s =>
    (Ok tt,
     {| host := {| axes := axes (host s); renderer := renderer (host s);
                   callbacks := cb |};
        log := log s; overview_img := overview_img s |}).

Definition get_overview_img : M (option RenderCapture) :=
  fun s => (Ok (overview_img s), s).

Definition put_overview_img (o : option RenderCapture) : M unit :=
  fun s => (Ok tt, {| host := host s; log := log s; overview_img := o |}).

Notation "x <- m ;; k" := (bind m (fun x => k))
  (at level 61, m at next level, right associativity).
Notation "m ;; k" := (bind m (fun _ => k))
  (at level 61, right associativity).

Fixpoint for_each {A} (l : list A) (body : A -> M unit) : M unit :=
  match l with
  | [] => ret tt
  | x :: l' => body x ;; for_each l' body
  end.

(** matplotlib's rendering: any function of the call and the host. *)
Variable exec : Call -> Host -> res unit * Host.

(** A rendering call: logged, then run by the host; the host state it
    leaves is kept whether or not it raises. *)
Definition call (c : Call) : M unit :=
  fun s =>
    let (r, h) := exec c (host s) in
    (r, {| host := h; log := log s ++ [c];
           overview_img := overview_img s |}).

(** ** Host methods with a fixed meaning *)

Definition with_collections (a : Axes) (c : list nat) : Axes :=
  {| xlim := xlim a; ylim := ylim a; xscale := xscale a;
     yscale := yscale a; transData := transData a; collections := c;
     spines := spines a; axes_draw := axes_draw a |}.

Definition with_axes_draw (a : Axes) (d : DrawMethod) : Axes :=
  {| xlim := xlim a; ylim := ylim a; xscale := xscale a;
     yscale := yscale a; transData := transData a;
     collections := collections a; spines := spines a; axes_draw := d |}.

(** The identity of a new object: different from every registered
    artist. *)
Definition fresh (ids : list nat) : nat := S (fold_right Nat.max O ids).

(** [axes.pcolormesh(X, Y, C, cmap=cmap)]: makes a mesh artist, adds it
    to [axes.collections] and returns it.  Only the registration is
    modelled: matplotlib's update of the data limits is left out, and so
    is its refusal of a colour array that does not fit X and Y, which
    cannot happen for a box inside the buffer. *)
Definition pcolormesh (X Y : list Data) (C : list (list byte))
           (cmap : string) : M QuadMesh :=
  h <- get_host ;;
  let m := {| mesh_id := fresh (collections (axes h)); mesh_X := X;
              mesh_Y := Y; mesh_C := C; mesh_cmap := cmap |} in
  put_axes (with_collections (axes h)
              (collections (axes h) ++ [mesh_id m])) ;;
  ret m.

(** [list.remove(x)]: drops the first element equal to [x], ValueError
    when there is none. *)
Fixpoint list_remove (x : nat) (l : list nat) : res (list nat) :=
  match l with
  | [] => Raise ValueError
  | y :: l' =>
      if Nat.eqb y x then Ok l'
      else match list_remove x l' with
           | Ok r => Ok (y :: r)
           | Raise e => Raise e
           end
  end.

Definition collections_remove (m : QuadMesh) : M unit :=
  h <- get_host ;;
  c <- lift (list_remove (mesh_id m) (collections (axes h))) ;;
  put_axes (with_collections (axes h) c).

(** [canvas.mpl_connect(name, handler)]. *)
Definition mpl_connect (name : string) (f : Handler) : M unit :=
  h <- get_host ;;
  put_callbacks (callbacks h ++ [(name, f)]).

(** ** class RenderCapture *)

(** [extract_image(renderer)]: the RGBA buffer as a
    (height, width, 4) array. *)
Definition RenderCapture_extract_image (r : Renderer) : res image :=
  reshape (height r) (width r) (buffer_rgba r).

(** The view's corners in device pixels,
    [axes.transData.transform(pts).astype(np.int)]. *)
Definition device_corners (a : Axes) : (Z * Z) * (Z * Z) :=
  let pts0 := (fst (xlim a), fst (ylim a)) in
  let pts1 := (snd (xlim a), snd (ylim a)) in
  let c0 := transform (transData a) pts0 in
  let c1 := transform (transData a) pts1 in
  ((astype_int (fst c0), astype_int (snd c0)),
   (astype_int (fst c1), astype_int (snd c1))).

(** [corners[0] += 5; corners[1] -= 5]. *)
Definition inset_corners (a : Axes) : (Z * Z) * (Z * Z) :=
  let '((x0, y0), (x1, y1)) := device_corners a in
  ((x0 + 5, y0 + 5), (x1 - 5, y1 - 5)).

(** [_get_corners(axes)]: pixel and data coordinates of the columns and
    rows of the box inset 5 pixels from the edge of the axes. *)
Definition RenderCapture_get_corners (a : Axes)
  : list Z * list Z * list Data * list Data :=
  let '((cx0, cy0), (cx1, cy1)) := inset_corners a in
  let px := arange cx0 cx1 in
  let py := arange cy0 cy1 in
  let tr := inverted (transData a) in
  let dx := map (fun p => fst (tr (inject_Z p, inject_Z p))) px in
  let dy := map (fun p => snd (tr (inject_Z p, inject_Z p))) py in
  (px, py, dx, dy).

(** The first statements of [__init__]: the buffer cropped to the box,
    [im[py[0] : py[-1] + 1, px[0] : px[-1] + 1, :]]. *)
Definition RenderCapture_crop (h : Host) : res image :=
  match RenderCapture_extract_image (renderer h) with
  | Raise e => Raise e
  | Ok im0 =>
      let '(px, py, _, _) := RenderCapture_get_corners (axes h) in
      match index py 0, index py (-1), index px 0, index px (-1) with
      | Ok r0, Ok r1, Ok c0, Ok c1 =>
          Ok (crop im0 r0 (r1 + 1) c0 (c1 + 1))
      | Raise e, _, _, _ => Raise e
      | _, Raise e, _, _ => Raise e
      | _, _, Raise e, _ => Raise e
      | _, _, _, Raise e => Raise e
      end
  end.

(** [RenderCapture.__init__(self, axes, renderer)]. *)
Definition RenderCapture_init : M RenderCapture :=
  h <- get_host ;;
  im1 <- lift (RenderCapture_crop h) ;;
  let '(_, _, dx, dy) := RenderCapture_get_corners (axes h) in
  m <- pcolormesh dx (rev dy) (first_channel im1) "gray" ;;
  collections_remove m ;;
  let i := set_data im1 (AxesImage_new "upper" "nearest") in
  e0 <- lift (index dx 0) ;;
  e1 <- lift (index dx (-1)) ;;
  e2 <- lift (index dy 0) ;;
  e3 <- lift (index dy (-1)) ;;
  ret {| mesh := m; im := set_extent (e0, e1, e2, e3) i |}.

(** [RenderCapture.draw(self, renderer)]: the scales are read from the
    axes when the call is made. *)
Definition RenderCapture_draw (rc : RenderCapture) : M unit :=
  h <- get_host ;;
  if (String.eqb (xscale (axes h)) "linear")
     && (String.eqb (yscale (axes h)) "linear")
  then call (AxesImage_draw (im rc))
  else call (QuadMesh_draw (mesh rc)).

(** ** class AxesCache *)

(** [AxesCache.draw(self, renderer)]. *)
Definition AxesCache_draw : M unit :=
  o <- get_overview_img ;;
  match o with
  | None =>
      call Axes_draw ;;
      rc <- RenderCapture_init ;;
      put_overview_img (Some rc)
  | Some rc =>
      call axesPatch_draw ;;
      RenderCapture_draw rc ;;
      call xaxis_draw ;;
      call yaxis_draw ;;
      h <- get_host ;;
      for_each (spines (axes h)) (fun s => call (Spine_draw (fst s)))
  end.

(** [AxesCache.reset(self)]. *)
Definition AxesCache_reset : M unit := put_overview_img None.

(** What a registered handler does when called with an event. *)
Definition run_handler (f : Handler) : M unit :=
  match f with
  | reset_lambda => AxesCache_reset
  end.

(** [AxesCache.refresh_on_mouseup(self)]. *)
Definition AxesCache_refresh_on_mouseup : M unit :=
  mpl_connect "button_release_event" reset_lambda.

(** [AxesCache.__init__(self, axes)]. *)
Definition AxesCache_init : M unit :=
  put_overview_img None ;;
  h <- get_host ;;
  put_axes (with_axes_draw (axes h) AxesCache_draw_method) ;;
  AxesCache_refresh_on_mouseup.

(** ** The host's dispatch *)

(** The canvas delivers an event to the handlers connected under its
    name, in the order they were connected. *)
Definition canvas_process (name : string) : M unit :=
  h <- get_host ;;
  for_each (filter (fun c => String.eqb (fst c) name) (callbacks h))
           (fun c => run_handler (snd c)).

(** The figure asks the axes to draw itself: [axes.draw(renderer)]. *)
Definition axes_draw_request : M unit :=
  h <- get_host ;;
  match axes_draw (axes h) with
  | AxesCache_draw_method => AxesCache_draw
  | Axes_draw_method => call Axes_draw
  end.

(** [n] draw requests in a row; an exception ends that request only. *)
Fixpoint repeat_draws (n : nat) (m : M unit) (s : State) : State :=
  match n with
  | O => s
  | S n' => repeat_draws n' m (snd (m s))
  end.

(** ** Conditions on the host *)

(** The view is degenerate when its inset box has no column or no
    row. *)
Definition degenerate (h : Host) : bool :=
  let '((cx0, cy0), (cx1, cy1)) := inset_corners (axes h) in
  (cx1 <=? cx0) || (cy1 <=? cy0).

(** The renderer's buffer has height * width * 4 bytes. *)
Definition buffer_ok (r : Renderer) : bool :=
  (0 <=? height r) && (0 <=? width r)
  && (Z.of_nat (List.length (buffer_rgba r)) =? height r * width r * 4).

(** The inset box lies inside the pixel buffer. *)
Definition inset_in_buffer (h : Host) : bool :=
  let '((cx0, cy0), (cx1, cy1)) := inset_corners (axes h) in
  (0 <=? cx0) && (cx1 <=? width (renderer h))
  && (0 <=? cy0) && (cy1 <=? height (renderer h)).

Definition capturable (h : Host) : bool :=
  buffer_ok (renderer h) && negb (degenerate h) && inset_in_buffer h.

(** The inverse transform depends on one device coordinate per data
    coordinate (rectilinear axes). *)
Definition separable (T : Transform) : Prop :=
  forall p q p' q',
    fst (inverted T (p, q)) = fst (inverted T (p, q')) /\
    snd (inverted T (p, q)) = snd (inverted T (p', q)).

(** [inverted] is an exact inverse of [transform]. *)
Definition exact_inverse (T : Transform) : Prop :=
  forall p,
    fst (transform T (inverted T p)) == fst p /\
    snd (transform T (inverted T p)) == snd p.

End Model.

Arguments Axes_draw {Data}.
Arguments axesPatch_draw {Data}.
Arguments xaxis_draw {Data}.
Arguments yaxis_draw {Data}.
Arguments Spine_draw {Data} key.

(** ** Concrete hosts *)

Module Scenario.

Local Open Scope Q_scope.

(** A linear view: [scale] pixels per data unit, shifted by [shift]
    pixels along x. *)
Definition linear (scale shift : Q) : Transform Q :=
  {| transform := fun p => (fst p * scale + shift, snd p * scale);
     inverted := fun p => ((fst p - shift) / scale, snd p / scale) |}.

Definition four_spines : list (string * nat) :=
  [("left"%string, 1%nat); ("right"%string, 2%nat);
   ("bottom"%string, 3%nat); ("top"%string, 4%nat)].

(** An axes showing x in [0, xmax] and y in [0, 6] at 2 pixels per
    unit, with one collection (a scatter plot). *)
Definition plot (xmax : Q) (shift : Q) (ysc : string) : Axes Q :=
  {| xlim := (0, xmax); ylim := (0, 6);
     xscale := "linear"; yscale := ysc;
     transData := linear 2 shift;
     collections := [7%nat];
     spines := four_spines;
     axes_draw := AxesCache_draw_method |}.

(** A 12 x 12 pixel renderer, every pixel (1, 2, 3, 255). *)
Definition agg : Renderer :=
  {| height := 12; width := 12;
     buffer_rgba := List.concat (repeat [x01; x02; x03; xff] (12 * 12)%nat) |}.

Definition host_of (a : Axes Q) : Host Q :=
  {| axes := a; renderer := agg;
     callbacks := [("button_release_event"%string, reset_lambda)] |}.

Definition start (a : Axes Q) : State Q :=
  {| host := host_of a; log := []; overview_img := None |}.

(** x and y in [0, 6] on 12 x 12 pixels. *)
Definition square : Axes Q := plot 6 0 "linear".

(** The same view with a logarithmic y scale. *)
Definition square_logy : Axes Q := plot 6 0 "log".

(** x in [0, 5]: 10 pixels wide, nothing is left of the inset box. *)
Definition narrow : Axes Q := plot 5 0 "linear".

(** x in [0, 11] on an axes whose left edge is 10 pixels left of the
    canvas: 22 pixels wide, from -10 to 12. *)
Definition off_canvas : Axes Q := plot 11 (-10) "linear".

(** A host whose rendering calls all return. *)
Definition exec_ok (c : Call Q) (h : Host Q) : res unit * Host Q :=
  (Ok tt, h).

(** A host whose full draw raises. *)
Definition exec_fail (c : Call Q) (h : Host Q) : res unit * Host Q :=
  match c with
  | Axes_draw => (Raise (HostError 1), h)
  | _ => (Ok tt, h)
  end.

(** The capture of [square]: the 2 x 2 pixels of columns and rows 5
    and 6. *)
Definition square_capture : RenderCapture Q :=
  let p := (x01, x02, x03, xff) in
  {| mesh := {| mesh_id := 8; mesh_X := [5 # 2; 6 # 2];
                mesh_Y := [6 # 2; 5 # 2];
                mesh_C := [[x01; x01]; [x01; x01]];
                mesh_cmap := "gray" |};
     im := {| im_origin := "upper"; im_interpolation := "nearest";
              im_data := Some [[p; p]; [p; p]];
              im_extent := Some (5 # 2, 6 # 2, 5 # 2, 6 # 2) |} |}.

(** A coordinate cut to three decimals. *)
Definition milli (x : Q) : Q := inject_Z (astype_int (x * 1000)) / 1000.

(** 7 pixels per data unit, with an inverse that keeps three decimals
    of the data coordinates. *)
Definition coarse : Transform Q :=
  {| transform := fun p => (fst p * 7, snd p * 7);
     inverted := fun p => (milli (fst p / 7), milli (snd p / 7)) |}.

(** x and y in [0, 12/7] under [coarse]: 12 by 12 device pixels. *)
Definition coarse_axes : Axes Q :=
  {| xlim := (0, 12 # 7); ylim := (0, 12 # 7);
     xscale := "linear"; yscale := "linear";
     transData := coarse;
     collections := [7%nat];
     spines := four_spines;
     axes_draw := AxesCache_draw_method |}.

(** A transform that mixes the axes: device x is data x plus data y. *)
Definition shear : Transform Q :=
  {| transform := fun p => (fst p + snd p, snd p);
     inverted := fun p => (fst p - snd p, snd p) |}.

(** x and y in [0, 12] under [shear]: 24 by 12 device pixels, on a
    renderer of that size. *)
Definition sheared : Host Q :=
  {| axes := {| xlim := (0, 12); ylim := (0, 12);
                xscale := "linear"; yscale := "linear";
                transData := shear;
                collections := [7%nat];
                spines := four_spines;
                axes_draw := AxesCache_draw_method |};
     renderer := {| height := 12; width := 24;
                    buffer_rgba :=
                      List.concat (repeat [x01; x02; x03; xff]
                                          (24 * 12)%nat) |};
     callbacks := [("button_release_event"%string, reset_lambda)] |}.

(** A state whose slot holds that capture. *)
Definition filled (a : Axes Q) : State Q :=
  {| host := host_of a; log := [Axes_draw];
     overview_img := Some square_capture |}.

End Scenario.

(** ** Vocabulary of the properties *)

Section Vocabulary.

Variable Data : Type.
Variable exec : Call Data -> Host Data -> res unit * Host Data.

(** Both axes are linear in [h]. *)
Definition both_linear (h : Host Data) : Prop :=
  xscale (axes h) = "linear"%string /\ yscale (axes h) = "linear"%string.

Definition linear_scales (h : Host Data) : bool :=
  String.eqb (xscale (axes h)) "linear"
  && String.eqb (yscale (axes h)) "linear".

(** Number of full draws among rendering calls. *)
Definition full_draws (l : list (Call Data)) : nat :=
  List.length (filter (@is_Axes_draw Data) l).

Definition is_prefix {A} (l m : list A) : Prop := exists t, m = l ++ t.

(** The host after the rendering calls [cs]. *)
Fixpoint host_after (cs : list (Call Data)) (h : Host Data) : Host Data :=
  match cs with
  | [] => h
  | c :: cs' => host_after cs' (snd (exec c h))
  end.

(** The calls of a complete cache hit: [image_path] tells which
    representation of the capture is drawn, [sp] is the spines dict read
    when the loop starts. *)
Definition hit_order (rc : RenderCapture Data) (image_path : bool)
           (sp : list (string * nat)) : list (Call Data) :=
  [axesPatch_draw;
   if image_path then AxesImage_draw (im rc) else QuadMesh_draw (mesh rc);
   xaxis_draw; yaxis_draw]
  ++ map (fun s => Spine_draw (fst s)) sp.

(** Each of the rendering calls [cs], made in turn from [h], returns. *)
Fixpoint all_return (cs : list (Call Data)) (h : Host Data) : Prop :=
  match cs with
  | [] => True
  | c :: cs' => fst (exec c h) = Ok tt /\ all_return cs' (snd (exec c h))
  end.

(** The pixel (p, q) is a column and a row of the inset box of [a]. *)
Definition in_box (a : Axes Data) (p q : Z) : Prop :=
  let '((cx0, cy0), (cx1, cy1)) := inset_corners a in
  cx0 <= p < cx1 /\ cy0 <= q < cy1.

(** On the pixels of the box, the inverse transform gives the data x of
    a point from its device x alone and the data y from its device y
    alone. *)
Definition per_axis (a : Axes Data) : Prop :=
  forall p q,
    in_box a p q ->
    fst (inverted (transData a) (inject_Z p, inject_Z p))
    = fst (inverted (transData a) (inject_Z p, inject_Z q)) /\
    snd (inverted (transData a) (inject_Z q, inject_Z q))
    = snd (inverted (transData a) (inject_Z p, inject_Z q)).

(** On the pixels of the box, the inverse transform followed by the
    transform comes back within [eps] of the pixel, in each
    coordinate. *)
Definition round_trip_within (eps : Q) (a : Axes Data) : Prop :=
  forall p q,
    in_box a p q ->
    let back := transform (transData a)
                  (inverted (transData a) (inject_Z p, inject_Z q)) in
    (Qabs (fst back - inject_Z p) <= eps)%Q /\
    (Qabs (snd back - inject_Z q) <= eps)%Q.

(** The host without its view: everything but the limits and the
    transform of the axes. *)
Definition outside_view (h : Host Data)
  : string * string * list nat * list (string * nat) * DrawMethod
    * Renderer * list (string * Handler) :=
  (xscale (axes h), yscale (axes h), collections (axes h),
   spines (axes h), axes_draw (axes h), renderer h, callbacks h).

(** The state in which the constructor runs on a miss: the host as the
    full draw left it, the full draw logged, the slot still empty. *)
Definition after_full_draw (s : State Data) (h : Host Data) : State Data :=
  {| host := h; log := log s ++ [Axes_draw]; overview_img := None |}.

End Vocabulary.

(** ** Reading an array back *)

(** The four bytes of a pixel, in buffer order. *)
Definition pixel_bytes (p : pixel) : list byte :=
  let '(r, g, b, a) := p in [r; g; b; a].

(** [im.ravel()]: the array as a flat buffer, row by row. *)
Definition flatten (im : image) : list byte :=
  flat_map (flat_map pixel_bytes) im.

(** [im[r, c]], for indices counted from 0. *)
Definition pixel_at (im : image) (r c : nat) : option pixel :=
  match nth_error im r with
  | Some row => nth_error row c
  | None => None
  end.

(** ** Sequences of requests *)

(** What the host sends to an attached cache. *)
Inductive Event : Type :=
| draw_request
| button_release.

(** The two states of the slot. *)
Inductive Slot : Type :=
| EMPTY
| FILLED.

Definition next (q : Slot) (e : Event) : Slot :=
  match e with
  | draw_request => FILLED
  | button_release => EMPTY
  end.

(** Draw requests of [es] that find the slot empty, when it starts in
    state [q] and every miss fills it. *)
Fixpoint misses (q : Slot) (es : list Event) : nat :=
  match es with
  | [] => O
  | draw_request :: es' =>
      ((match q with EMPTY => 1 | FILLED => 0 end) + misses FILLED es')%nat
  | button_release :: es' => misses EMPTY es'
  end.

Definition draw_requests (es : list Event) : nat :=
  List.length
    (filter (fun e => match e with draw_request => true | _ => false end)
            es).

Section Driver.

Variable Data : Type.
Variable exec : Call Data -> Host Data -> res unit * Host Data.

Definition slot_of (s : State Data) : Slot :=
  match overview_img s with
  | None => EMPTY
  | Some _ => FILLED
  end.

(** One event: a draw request runs [AxesCache.draw], a button release is
    delivered by the canvas. *)
Definition step (e : Event) : M Data unit :=
  match e with
  | draw_request => AxesCache_draw exec
  | button_release => canvas_process "button_release_event"
  end.

(** The events of [es] in turn; an exception ends its own event only. *)
Fixpoint run (es : list Event) (s : State Data) : State Data :=
  match es with
  | [] => s
  | e :: es' => run es' (snd (step e s))
  end.

(** A computation keeps [P] when [P] holds of the host it leaves if it
    held of the host it started from. *)
Definition keeps (P : Host Data -> Prop) {A} (m : M Data A) : Prop :=
  forall s, P (host s) -> P (host (snd (m s))).

(** The cache is connected to the canvas of [h]. *)
Definition connected (h : Host Data) : Prop :=
  In ("button_release_event"%string, reset_lambda) (callbacks h).

(** A host on which a miss always fills the slot. *)
Definition good (h : Host Data) : Prop :=
  capturable h = true /\ connected h.

(** Rendering keeps the host good, and the full draw of a good host
    returns. *)
Definition steady : Prop :=
  (forall c h, good h -> good (snd (exec c h))) /\
  (forall h, good h -> fst (exec Axes_draw h) = Ok tt).

End Driver.

(** * Properties *)

(** ** Sequences *)

(** Case analysis on the boolean comparisons of a goal, the impossible
    cases closed by [lia]. *)
Ltac zcases :=
  repeat match goal with
    | |- context [Z.leb ?a ?b] => destruct (Z.leb_spec a b); try lia
    | |- context [Z.ltb ?a ?b] => destruct (Z.ltb_spec a b); try lia
    | |- context [Z.eqb ?a ?b] => destruct (Z.eqb_spec a b); try lia
    end;
  cbn [andb orb negb].

Section PyFacts.

Lemma arange_from_length (a : Z) (n : nat) :
  List.length (arange_from a n) = n.
Proof.
  revert a; induction n as [|n IH]; intros a; simpl; [reflexivity|].
  now rewrite IH.
Qed.

Lemma arange_length (a b : Z) :
  Z.of_nat (List.length (arange a b)) = Z.max 0 (b - a).
Proof.
  unfold arange. rewrite arange_from_length. lia.
Qed.

Lemma arange_empty (a b : Z) : b <= a -> arange a b = [].
Proof.
  intros H. unfold arange.
  replace (Z.to_nat (b - a)) with O by lia. reflexivity.
Qed.

Lemma nth_error_arange_from (a : Z) (n i : nat) :
  (i < n)%nat -> nth_error (arange_from a n) i = Some (a + Z.of_nat i).
Proof.
  revert a i; induction n as [|n IH]; intros a i Hi; [lia|].
  destruct i as [|i]; simpl.
  - f_equal; lia.
  - rewrite IH by lia. f_equal; lia.
Qed.

Lemma index_nil {A} (i : Z) : index (@nil A) i = Raise IndexError.
Proof.
  unfold index; simpl. zcases; reflexivity.
Qed.

Lemma index_arange_first (a b : Z) : a < b -> index (arange a b) 0 = Ok a.
Proof.
  intros H. unfold index. rewrite arange_length.
  change (0 <? 0) with false. cbv iota. zcases.
  unfold arange. rewrite nth_error_arange_from by lia.
  f_equal; lia.
Qed.

Lemma index_arange_last (a b : Z) :
  a < b -> index (arange a b) (-1) = Ok (b - 1).
Proof.
  intros H. unfold index. rewrite arange_length.
  change (-1 <? 0) with true. cbv iota. zcases.
  unfold arange. rewrite nth_error_arange_from by lia.
  f_equal; lia.
Qed.

Lemma index_raise {A} (l : list A) (i : Z) (e : Exn) :
  index l i = Raise e -> e = IndexError.
Proof.
  unfold index.
  destruct (_ && _); [destruct (nth_error l _)|]; congruence.
Qed.

Lemma index_map {A B} (f : A -> B) (l : list A) (i : Z) :
  index (map f l) i =
  match index l i with Ok x => Ok (f x) | Raise e => Raise e end.
Proof.
  unfold index. rewrite length_map.
  destruct ((0 <=? (if i <? 0 then i + Z.of_nat (List.length l) else i))
            && ((if i <? 0 then i + Z.of_nat (List.length l) else i)
                <? Z.of_nat (List.length l))); [|reflexivity].
  rewrite nth_error_map.
  destruct (nth_error l _); reflexivity.
Qed.

Lemma clip_inside (n i : Z) : 0 <= i <= n -> clip n i = i.
Proof.
  intros H. unfold clip. zcases; lia.
Qed.

Lemma slice_length {A} (l : list A) (i j : Z) :
  0 <= i <= j -> j <= Z.of_nat (List.length l) ->
  Z.of_nat (List.length (slice l i j)) = j - i.
Proof.
  intros Hi Hj. unfold slice.
  rewrite !clip_inside by lia.
  rewrite length_firstn, length_skipn. lia.
Qed.

Lemma slice_Forall {A} (P : A -> Prop) (l : list A) (i j : Z) :
  Forall P l -> Forall P (slice l i j).
Proof.
  intros H. unfold slice.
  set (a := Z.to_nat (clip (Z.of_nat (List.length l)) i)).
  set (n := Z.to_nat _).
  rewrite <- (firstn_skipn a l) in H.
  apply Forall_app in H. destruct H as [_ H].
  rewrite <- (firstn_skipn n (skipn a l)) in H.
  apply Forall_app in H. tauto.
Qed.

End PyFacts.

(** ** Pixel buffers *)

Section ImageFacts.

Lemma pixels_length (k : nat) (l : list byte) :
  List.length l = (4 * k)%nat -> List.length (pixels k l) = k.
Proof.
  revert l; induction k as [|k IH]; intros l H; [reflexivity|].
  destruct l as [|r [|g [|b [|a t]]]]; simpl in H; try lia.
  simpl. rewrite IH; [reflexivity|lia].
Qed.

Lemma rows_length {A} (k w : nat) (l : list A) :
  List.length (rows k w l) = k.
Proof.
  revert l; induction k as [|k IH]; intros l; simpl; [reflexivity|].
  now rewrite IH.
Qed.

Lemma rows_width {A} (k w : nat) (l : list A) :
  List.length l = (k * w)%nat ->
  Forall (fun row => List.length row = w) (rows k w l).
Proof.
  revert l; induction k as [|k IH]; intros l H; simpl; [constructor|].
  constructor.
  - rewrite length_firstn. lia.
  - apply IH. rewrite length_skipn. lia.
Qed.

Lemma reshape_shape (h w : Z) (buf : list byte) (im : image) :
  reshape h w buf = Ok im -> has_shape im h w.
Proof.
  unfold reshape, has_shape.
  destruct (Z.leb_spec 0 h) as [Hh|]; [|discriminate].
  destruct (Z.leb_spec 0 w) as [Hw|]; [|discriminate].
  destruct (Z.eqb_spec (Z.of_nat (List.length buf)) (h * w * 4))
    as [Hb|]; [|discriminate].
  cbn [andb]. intros E; injection E as <-.
  rewrite rows_length. split; [lia|].
  eapply Forall_impl; [|apply rows_width].
  - intros row Hrow. cbv beta in Hrow. rewrite Hrow. lia.
  - rewrite pixels_length; nia.
Qed.

Lemma reshape_ok (h w : Z) (buf : list byte) :
  0 <= h -> 0 <= w -> Z.of_nat (List.length buf) = h * w * 4 ->
  exists im, reshape h w buf = Ok im.
Proof.
  intros Hh Hw Hb. unfold reshape. zcases. eexists; reflexivity.
Qed.

Lemma crop_shape (im : image) (h w r0 r1 c0 c1 : Z) :
  has_shape im h w ->
  0 <= r0 <= r1 -> r1 <= h -> 0 <= c0 <= c1 -> c1 <= w ->
  has_shape (crop im r0 r1 c0 c1) (r1 - r0) (c1 - c0).
Proof.
  intros [Hh Hw] Hr0 Hr1 Hc0 Hc1. unfold crop, has_shape.
  rewrite length_map. split.
  - apply slice_length; lia.
  - apply Forall_map.
    eapply Forall_impl; [|apply slice_Forall, Hw].
    intros row Hrow. cbv beta in *. apply slice_length; lia.
Qed.

End ImageFacts.

(** ** The capture *)

Section CaptureFacts.

Variable Data : Type.

Implicit Types (h : Host Data) (s : State Data) (a : Axes Data).

Lemma get_corners_eq a cx0 cy0 cx1 cy1 :
  inset_corners a = ((cx0, cy0), (cx1, cy1)) ->
  RenderCapture_get_corners a =
  (arange cx0 cx1, arange cy0 cy1,
   map (fun p => fst (inverted (transData a) (inject_Z p, inject_Z p)))
       (arange cx0 cx1),
   map (fun p => snd (inverted (transData a) (inject_Z p, inject_Z p)))
       (arange cy0 cy1)).
Proof.
  intros E. unfold RenderCapture_get_corners. rewrite E. reflexivity.
Qed.

Lemma inset_of_device a x0 y0 x1 y1 :
  device_corners a = ((x0, y0), (x1, y1)) ->
  inset_corners a = ((x0 + 5, y0 + 5), (x1 - 5, y1 - 5)).
Proof.
  intros E. unfold inset_corners. rewrite E. reflexivity.
Qed.

(** A degenerate view makes the crop raise: IndexError when the buffer
    reshapes, the reshape's ValueError otherwise. *)
Lemma crop_degenerate h :
  degenerate h = true ->
  exists e, RenderCapture_crop h = Raise e /\
            (buffer_ok (renderer h) = true -> e = IndexError).
Proof.
  unfold degenerate, RenderCapture_crop, buffer_ok,
    RenderCapture_extract_image, reshape.
  destruct (inset_corners (axes h)) as [[cx0 cy0] [cx1 cy1]] eqn:E.
  rewrite (get_corners_eq E). intros D.
  destruct ((0 <=? height (renderer h)) && (0 <=? width (renderer h))
            && (Z.of_nat (List.length (buffer_rgba (renderer h)))
                =? height (renderer h) * width (renderer h) * 4)).
  - exists IndexError. split; [|reflexivity].
    apply orb_true_iff in D. destruct D as [D|D].
    + apply Z.leb_le in D.
      rewrite (arange_empty D), !index_nil.
      destruct (index (arange cy0 cy1) 0) eqn:I0;
        [|now rewrite (index_raise _ _ I0)].
      destruct (index (arange cy0 cy1) (-1)) eqn:I1;
        [|now rewrite (index_raise _ _ I1)].
      reflexivity.
    + apply Z.leb_le in D.
      rewrite (arange_empty D), !index_nil. reflexivity.
  - exists ValueError. split; [reflexivity|discriminate].
Qed.

(** Outside the degenerate case the crop is the slice between the inset
    corners. *)
Lemma crop_nondegenerate h cx0 cy0 cx1 cy1 im0 :
  inset_corners (axes h) = ((cx0, cy0), (cx1, cy1)) ->
  RenderCapture_extract_image (renderer h) = Ok im0 ->
  cx0 < cx1 -> cy0 < cy1 ->
  RenderCapture_crop h = Ok (crop im0 cy0 cy1 cx0 cx1).
Proof.
  intros E X Hx Hy. unfold RenderCapture_crop.
  rewrite X, (get_corners_eq E).
  rewrite !index_arange_first, !index_arange_last by assumption.
  do 2 f_equal; lia.
Qed.

Lemma crop_ok_nondegenerate h im1 :
  RenderCapture_crop h = Ok im1 -> degenerate h = false.
Proof.
  intros E. destruct (degenerate h) eqn:D; [|reflexivity].
  destruct (crop_degenerate h D) as [e [R _]]. congruence.
Qed.

Lemma capturable_crop h :
  capturable h = true ->
  exists im1, RenderCapture_crop h = Ok im1.
Proof.
  unfold capturable. intros C.
  apply andb_true_iff in C. destruct C as [C _].
  apply andb_true_iff in C. destruct C as [B D].
  apply negb_true_iff in D. unfold degenerate in D.
  destruct (inset_corners (axes h)) as [[cx0 cy0] [cx1 cy1]] eqn:E.
  apply orb_false_iff in D. destruct D as [Dx Dy].
  apply Z.leb_gt in Dx, Dy.
  unfold buffer_ok in B.
  apply andb_true_iff in B. destruct B as [B B3].
  apply andb_true_iff in B. destruct B as [B1 B2].
  apply Z.leb_le in B1, B2. apply Z.eqb_eq in B3.
  destruct (reshape_ok _ B1 B2 B3) as [im0 R].
  eexists. eapply crop_nondegenerate; eassumption.
Qed.

(** The identity given to a new mesh is not among the registered
    ones. *)
Lemma fresh_above (ids : list nat) (x : nat) :
  In x ids -> (x < fresh ids)%nat.
Proof.
  unfold fresh. induction ids as [|y ids IH]; simpl; [tauto|].
  intros [->|H]; [lia|]. specialize (IH H). lia.
Qed.

Lemma list_remove_last (x : nat) (l : list nat) :
  ~ In x l -> list_remove x (l ++ [x]) = Ok l.
Proof.
  induction l as [|y l IH]; simpl; intros H.
  - now rewrite Nat.eqb_refl.
  - destruct (Nat.eqb_spec y x) as [->|N]; [tauto|].
    rewrite IH by tauto. reflexivity.
Qed.

Lemma list_remove_fresh (l : list nat) :
  list_remove (fresh l) (l ++ [fresh l]) = Ok l.
Proof.
  apply list_remove_last. intros H. apply fresh_above in H. lia.
Qed.

Lemma nondegenerate_corners h cx0 cy0 cx1 cy1 :
  inset_corners (axes h) = ((cx0, cy0), (cx1, cy1)) ->
  degenerate h = false -> cx0 < cx1 /\ cy0 < cy1.
Proof.
  unfold degenerate. intros -> D.
  apply orb_false_iff in D. destruct D as [Dx Dy].
  apply Z.leb_gt in Dx, Dy. tauto.
Qed.

(** A failed crop ends the constructor before it touches the axes. *)
Lemma RenderCapture_init_raise s e :
  RenderCapture_crop (host s) = Raise e ->
  RenderCapture_init s = (Raise e, s).
Proof.
  intros E. unfold RenderCapture_init, bind, get_host, lift.
  rewrite E. reflexivity.
Qed.

(** After a successful crop the constructor returns, and leaves the
    state as it found it. *)
Lemma RenderCapture_init_ok s im1 cx0 cy0 cx1 cy1 :
  inset_corners (axes (host s)) = ((cx0, cy0), (cx1, cy1)) ->
  RenderCapture_crop (host s) = Ok im1 ->
  let T := transData (axes (host s)) in
  let tx := fun p => fst (inverted T (inject_Z p, inject_Z p)) in
  let ty := fun p => snd (inverted T (inject_Z p, inject_Z p)) in
  exists rc,
    RenderCapture_init s = (Ok rc, s) /\
    im_data (im rc) = Some im1 /\
    im_extent (im rc) = Some (tx cx0, tx (cx1 - 1), ty cy0, ty (cy1 - 1)) /\
    mesh_X (mesh rc) = map tx (arange cx0 cx1) /\
    mesh_Y (mesh rc) = rev (map ty (arange cy0 cy1)) /\
    mesh_C (mesh rc) = first_channel im1.
Proof.
  intros E C T tx ty.
  destruct (nondegenerate_corners _ E (crop_ok_nondegenerate _ C))
    as [Hx Hy].
  unfold RenderCapture_init, bind, get_host, lift.
  rewrite C, (get_corners_eq E).
  unfold pcolormesh, collections_remove, bind, get_host, put_axes, ret,
    lift.
  cbn [host axes collections with_collections mesh_id fst snd].
  rewrite list_remove_fresh.
  rewrite !index_map, !index_arange_first, !index_arange_last
    by assumption.
  cbv iota beta.
  match goal with
  | |- exists rc, (Ok ?x, ?s') = _ /\ _ =>
      exists x; replace s' with s
        by (destruct s as [[a r cb] l o]; destruct a; reflexivity)
  end.
  repeat split; reflexivity.
Qed.

(** Whatever its outcome, the constructor leaves the state as it found
    it. *)
Lemma RenderCapture_init_frame s : snd (RenderCapture_init s) = s.
Proof.
  destruct (RenderCapture_crop (host s)) as [im1|e] eqn:C.
  - destruct (inset_corners (axes (host s))) as [[cx0 cy0] [cx1 cy1]] eqn:E.
    destruct (RenderCapture_init_ok s E C) as (rc & R & _).
    now rewrite R.
  - now rewrite (RenderCapture_init_raise s C).
Qed.

Lemma RenderCapture_init_capturable s :
  capturable (host s) = true ->
  exists rc, RenderCapture_init s = (Ok rc, s).
Proof.
  intros C. destruct (capturable_crop _ C) as [im1 K].
  destruct (inset_corners (axes (host s))) as [[cx0 cy0] [cx1 cy1]] eqn:E.
  destruct (RenderCapture_init_ok s E K) as (rc & R & _).
  now exists rc.
Qed.

End CaptureFacts.

(** ** The cache controller *)

Section CacheFacts.

Variable Data : Type.
Variable exec : Call Data -> Host Data -> res unit * Host Data.

Implicit Types (h : Host Data) (s : State Data) (rc : RenderCapture Data).

Lemma call_eq (c : Call Data) s :
  call exec c s =
  (fst (exec c (host s)),
   {| host := snd (exec c (host s)); log := log s ++ [c];
      overview_img := overview_img s |}).
Proof.
  unfold call. destruct (exec c (host s)); reflexivity.
Qed.

(** A miss, step by step. *)
Lemma draw_miss_eq s :
  overview_img s = None ->
  AxesCache_draw exec s =
  match exec Axes_draw (host s) with
  | (Raise e, h) => (Raise e, after_full_draw s h)
  | (Ok _, h) =>
      match RenderCapture_init (after_full_draw s h) with
      | (Ok rc, s2) =>
          (Ok tt, {| host := host s2; log := log s2;
                     overview_img := Some rc |})
      | (Raise e, s2) => (Raise e, s2)
      end
  end.
Proof.
  intros E. unfold AxesCache_draw, bind, get_overview_img.
  rewrite E, call_eq, E.
  destruct (exec Axes_draw (host s)) as [[u|e] h]; cbn [fst snd];
    [|reflexivity].
  unfold after_full_draw.
  destruct (RenderCapture_init _) as [[rc|e] s2]; reflexivity.
Qed.

(** A miss renders the full draw and nothing else. *)
Lemma draw_miss_log s :
  overview_img s = None ->
  log (snd (AxesCache_draw exec s)) = log s ++ [Axes_draw].
Proof.
  intros E. rewrite (draw_miss_eq s E).
  destruct (exec Axes_draw (host s)) as [[u|e] h]; [|reflexivity].
  pose proof (RenderCapture_init_frame (after_full_draw s h)) as F.
  destruct (RenderCapture_init (after_full_draw s h)) as [[rc|e] s2];
    cbn [fst snd] in *; subst s2; reflexivity.
Qed.

Lemma full_draws_app (l m : list (Call Data)) :
  full_draws (l ++ m) = (full_draws l + full_draws m)%nat.
Proof.
  unfold full_draws. now rewrite filter_app, length_app.
Qed.

(** The loop over the spines. *)
Lemma spines_loop (sp : list (string * nat)) s :
  let all := map (fun k => Spine_draw (fst k)) sp in
  let run := for_each sp (fun k => call exec (Spine_draw (fst k))) s in
  exists l,
    log (snd run) = log s ++ l /\
    is_prefix l all /\
    full_draws l = 0%nat /\
    overview_img (snd run) = overview_img s /\
    (fst run = Ok tt -> l = all).
Proof.
  revert s. induction sp as [|k sp IH]; intros s all run; subst run.
  - exists []. cbn. rewrite app_nil_r.
    repeat split; try reflexivity. now exists [].
  - cbn [for_each]. unfold bind. rewrite call_eq.
    destruct (fst (exec (Spine_draw (fst k)) (host s))) as [u|e].
    + match goal with |- context [for_each sp _ ?s1] =>
        destruct (IH s1) as (l & L & P & F & O & R) end.
      cbn [log overview_img] in L, O.
      exists (Spine_draw (fst k) :: l). cbn [fst snd].
      rewrite L, <- app_assoc. repeat split; try assumption.
      * destruct P as [t P]. exists t. subst all. cbn [map].
        rewrite P. reflexivity.
      * intros Hr. subst all. cbn [map]. now rewrite (R Hr).
    + exists [Spine_draw (fst k)]. cbn [fst snd log overview_img].
      repeat split.
      * exists (map (fun k => Spine_draw (fst k)) sp). reflexivity.
      * discriminate.
Qed.

Lemma RenderCapture_draw_eq rc s :
  RenderCapture_draw exec rc s =
  call exec (if linear_scales (host s) then AxesImage_draw (im rc)
             else QuadMesh_draw (mesh rc)) s.
Proof.
  unfold RenderCapture_draw, bind, get_host, linear_scales.
  destruct (_ && _); reflexivity.
Qed.

(** A hit, whole: the calls made are an initial segment of the order
    patch, capture, x axis, y axis, spines; all of it when no call
    raises; the slot is not touched. *)
Lemma draw_hit_trace s rc :
  overview_img s = Some rc ->
  let h1 := host_after exec [axesPatch_draw] (host s) in
  let b := linear_scales h1 in
  let rep := if b then AxesImage_draw (im rc)
             else QuadMesh_draw (mesh rc) in
  let h4 := host_after exec [rep; xaxis_draw; yaxis_draw] h1 in
  let order := hit_order rc b (spines (axes h4)) in
  exists l,
    log (snd (AxesCache_draw exec s)) = log s ++ l /\
    is_prefix l order /\
    full_draws l = 0%nat /\
    overview_img (snd (AxesCache_draw exec s)) = Some rc /\
    (fst (AxesCache_draw exec s) = Ok tt -> l = order).
Proof.
  intros E. cbv zeta. cbn [host_after].
  set (h1 := snd (exec axesPatch_draw (host s))).
  set (b := linear_scales h1).
  set (rep := if b then AxesImage_draw (im rc)
              else QuadMesh_draw (mesh rc)).
  set (h4 := snd (exec yaxis_draw (snd (exec xaxis_draw
                                          (snd (exec rep h1)))))).
  set (order := hit_order rc b (spines (axes h4))).
  assert (Frep : full_draws [axesPatch_draw; rep] = 0%nat)
    by (subst rep; destruct b; reflexivity).
  assert (Frep3 : full_draws [axesPatch_draw; rep; xaxis_draw; yaxis_draw]
                  = 0%nat)
    by (subst rep; destruct b; reflexivity).
  unfold AxesCache_draw, bind, get_overview_img. rewrite E.
  rewrite call_eq. fold h1.
  destruct (fst (exec axesPatch_draw (host s))) as [u|e].
  2:{ exists [axesPatch_draw]. cbn [fst snd log overview_img].
      split; [|split; [|split; [|split]]].
      - reflexivity.
      - eexists; reflexivity.
      - reflexivity.
      - assumption.
      - discriminate. }
  rewrite RenderCapture_draw_eq. cbn [host]. fold b rep.
  rewrite call_eq. cbn [host log overview_img].
  destruct (fst (exec rep h1)) as [u1|e].
  2:{ exists [axesPatch_draw; rep]. cbn [fst snd log overview_img].
      split; [|split; [|split; [|split]]].
      - now rewrite <- app_assoc.
      - eexists; reflexivity.
      - assumption.
      - assumption.
      - discriminate. }
  rewrite call_eq. cbn [host log overview_img].
  destruct (fst (exec xaxis_draw _)) as [u2|e].
  2:{ exists [axesPatch_draw; rep; xaxis_draw].
      cbn [fst snd log overview_img].
      split; [|split; [|split; [|split]]].
      - now rewrite <- !app_assoc.
      - eexists; reflexivity.
      - subst rep. destruct b; reflexivity.
      - assumption.
      - discriminate. }
  rewrite call_eq. cbn [host log overview_img]. fold h4.
  destruct (fst (exec yaxis_draw _)) as [u3|e].
  2:{ exists [axesPatch_draw; rep; xaxis_draw; yaxis_draw].
      cbn [fst snd log overview_img].
      split; [|split; [|split; [|split]]].
      - now rewrite <- !app_assoc.
      - exists (map (fun k => Spine_draw (fst k)) (spines (axes h4))).
        reflexivity.
      - assumption.
      - assumption.
      - discriminate. }
  unfold get_host. cbn [host].
  match goal with |- context [for_each _ _ ?s1] =>
    destruct (spines_loop (spines (axes h4)) s1) as (l & L & P & F & O & R)
  end.
  cbn [log overview_img] in L, O.
  exists ([axesPatch_draw; rep; xaxis_draw; yaxis_draw] ++ l).
  split; [|split; [|split; [|split]]].
  - rewrite L, <- !app_assoc. reflexivity.
  - destruct P as [t P]. exists t. unfold order, hit_order. fold rep.
    rewrite P, <- app_assoc. reflexivity.
  - now rewrite full_draws_app, F, Frep3.
  - now rewrite O.
  - intros Hr. unfold order, hit_order. fold rep. now rewrite (R Hr).
Qed.

(** C1 (amended).  A draw request that finds the slot empty invokes the
    full draw routine exactly once and makes no other rendering call;
    when the full draw returns and leaves a view whose inset box is not
    empty and lies inside a well-sized pixel buffer, the request returns
    and the slot holds the capture just constructed; a request that
    raises leaves the slot empty.  A request that finds the slot filled
    does not invoke the full draw routine and leaves the same capture in
    the slot. *)
Theorem AxesCache_draw_miss_hit s :
  let r := fst (AxesCache_draw exec s) in
  let s' := snd (AxesCache_draw exec s) in
  (overview_img s = None ->
   (exists l, log s' = log s ++ l /\ l = [Axes_draw] /\
              full_draws l = 1%nat) /\
   (is_ok r = false -> overview_img s' = None) /\
   (forall h,
       exec Axes_draw (host s) = (Ok tt, h) -> capturable h = true ->
       exists rc,
         RenderCapture_init (after_full_draw s h)
         = (Ok rc, after_full_draw s h) /\
         r = Ok tt /\ overview_img s' = Some rc)) /\
  (forall rc,
      overview_img s = Some rc ->
      (exists l, log s' = log s ++ l /\ full_draws l = 0%nat) /\
      overview_img s' = Some rc).
Proof.
  cbv zeta. split.
  - intros E. rewrite (draw_miss_eq s E).
    destruct (exec Axes_draw (host s)) as [[[]|e] h].
    + pose proof (RenderCapture_init_frame (after_full_draw s h)) as F.
      destruct (RenderCapture_init (after_full_draw s h)) as [[rc|e] s2]
        eqn:I; cbn [fst snd] in *; subst s2.
      * split; [eexists; repeat split|].
        split; [discriminate|].
        intros h' X C. injection X as <-.
        destruct (RenderCapture_init_capturable (after_full_draw s h) C)
          as [rc' R].
        exists rc. rewrite I. repeat split.
      * split; [eexists; repeat split|].
        split; [reflexivity|].
        intros h' X C. injection X as <-.
        destruct (RenderCapture_init_capturable (after_full_draw s h) C)
          as [rc' R].
        congruence.
    + cbn [fst snd]. split; [eexists; repeat split|].
      split; [reflexivity|discriminate].
  - intros rc E.
    destruct (draw_hit_trace s E) as (l & L & _ & F & O & _).
    split; [exists l; tauto | assumption].
Qed.

(** C3 (amended).  No check for a degenerate view is made: on a miss
    the full draw is performed first; when it returns and the view it
    leaves has an empty inset box, the constructor is entered and
    raises (IndexError when the buffer has the renderer's size), the
    exception leaves the draw request, no capture is stored and nothing
    but the full draw was rendered. *)
Theorem AxesCache_draw_degenerate s h :
  overview_img s = None ->
  exec Axes_draw (host s) = (Ok tt, h) ->
  degenerate h = true ->
  exists e,
    AxesCache_draw exec s = (Raise e, after_full_draw s h) /\
    RenderCapture_init (after_full_draw s h)
    = (Raise e, after_full_draw s h) /\
    (buffer_ok (renderer h) = true -> e = IndexError).
Proof.
  intros E X D. destruct (crop_degenerate h D) as (e & C & B).
  exists e. rewrite (draw_miss_eq s E), X.
  rewrite (RenderCapture_init_raise (after_full_draw s h) C).
  repeat split. assumption.
Qed.

(** C6.  When the full draw of a miss raises, the same exception leaves
    the draw request, the slot stays empty and the constructor has not
    run: the state is the one the full draw left.  A miss fills the slot
    only when the full draw has returned. *)
Theorem AxesCache_draw_full_draw_raises s :
  overview_img s = None ->
  (forall e h,
      exec Axes_draw (host s) = (Raise e, h) ->
      AxesCache_draw exec s = (Raise e, after_full_draw s h) /\
      overview_img (snd (AxesCache_draw exec s)) = None) /\
  (forall rc,
      overview_img (snd (AxesCache_draw exec s)) = Some rc ->
      fst (exec Axes_draw (host s)) = Ok tt /\
      RenderCapture_init
        (after_full_draw s (snd (exec Axes_draw (host s))))
      = (Ok rc, after_full_draw s (snd (exec Axes_draw (host s))))).
Proof.
  intros E. rewrite (draw_miss_eq s E). split.
  - intros e h X. rewrite X. split; reflexivity.
  - intros rc. destruct (exec Axes_draw (host s)) as [[[]|e] h].
    + pose proof (RenderCapture_init_frame (after_full_draw s h)) as F.
      cbn [fst snd].
      destruct (RenderCapture_init (after_full_draw s h)) as [[rc'|e] s2];
        cbn [fst snd overview_img] in *; subst s2.
      * intros [= ->]. split; reflexivity.
      * discriminate.
    + discriminate.
Qed.

Lemma spines_loop_result (sp : list (string * nat)) s :
  fst (for_each sp (fun k => call exec (Spine_draw (fst k))) s) = Ok tt <->
  all_return exec (map (fun k => Spine_draw (fst k)) sp) (host s).
Proof.
  revert s. induction sp as [|k sp IH]; intros s.
  - cbn. tauto.
  - cbn [for_each map all_return]. unfold bind. rewrite call_eq.
    destruct (fst (exec (Spine_draw (fst k)) (host s))) as [[]|e].
    + rewrite IH. cbn [host]. tauto.
    + cbn [fst]. split; [discriminate|intros [H _]; discriminate H].
Qed.

(** A hit returns exactly when each of its rendering calls returns. *)
Lemma draw_hit_result s rc :
  overview_img s = Some rc ->
  let h1 := host_after exec [axesPatch_draw] (host s) in
  let b := linear_scales h1 in
  let rep := if b then AxesImage_draw (im rc)
             else QuadMesh_draw (mesh rc) in
  let h4 := host_after exec [rep; xaxis_draw; yaxis_draw] h1 in
  fst (AxesCache_draw exec s) = Ok tt <->
  all_return exec (hit_order rc b (spines (axes h4))) (host s).
Proof.
  intros E. cbv zeta. cbn [host_after]. unfold hit_order.
  set (h1 := snd (exec axesPatch_draw (host s))).
  set (b := linear_scales h1).
  set (rep := if b then AxesImage_draw (im rc)
              else QuadMesh_draw (mesh rc)).
  set (h4 := snd (exec yaxis_draw (snd (exec xaxis_draw
                                          (snd (exec rep h1)))))).
  cbn [app all_return]. fold h1. fold h4.
  unfold AxesCache_draw, bind, get_overview_img. rewrite E.
  rewrite call_eq. fold h1.
  destruct (fst (exec axesPatch_draw (host s))) as [[]|e];
    [|cbn [fst]; split; [discriminate|intros [H _]; discriminate H]].
  rewrite RenderCapture_draw_eq. cbn [host]. fold b rep.
  rewrite call_eq. cbn [host log overview_img].
  destruct (fst (exec rep h1)) as [[]|e];
    [|cbn [fst]; split; [discriminate|intros (_ & H & _); discriminate H]].
  rewrite call_eq. cbn [host log overview_img].
  destruct (fst (exec xaxis_draw _)) as [[]|e];
    [|cbn [fst]; split;
      [discriminate|intros (_ & _ & H & _); discriminate H]].
  rewrite call_eq. cbn [host log overview_img]. fold h4.
  destruct (fst (exec yaxis_draw _)) as [[]|e];
    [|cbn [fst]; split;
      [discriminate|intros (_ & _ & _ & H & _); discriminate H]].
  unfold get_host. cbn [host].
  rewrite spines_loop_result. cbn [host]. tauto.
Qed.

(** C7.  On a hit the full draw is not invoked, and the rendering calls
    are made in this order: the background patch, the capture (its image
    or its mesh), the x axis, the y axis, then each spine in the order
    of the spines dict.  When each of these calls returns, the request
    returns and has made exactly these calls; in every case the calls
    made are an initial segment of that sequence, and the request returns
    only when all of them returned. *)
Theorem AxesCache_draw_hit_order s rc :
  overview_img s = Some rc ->
  let h1 := host_after exec [axesPatch_draw] (host s) in
  let b := linear_scales h1 in
  let rep := if b then AxesImage_draw (im rc)
             else QuadMesh_draw (mesh rc) in
  let h4 := host_after exec [rep; xaxis_draw; yaxis_draw] h1 in
  let order :=
    [axesPatch_draw; rep; xaxis_draw; yaxis_draw]
    ++ map (fun k => Spine_draw (fst k)) (spines (axes h4)) in
  exists l,
    log (snd (AxesCache_draw exec s)) = log s ++ l /\
    full_draws l = 0%nat /\
    is_prefix l order /\
    (fst (AxesCache_draw exec s) = Ok tt -> l = order) /\
    (all_return exec order (host s) ->
     fst (AxesCache_draw exec s) = Ok tt /\ l = order) /\
    (fst (AxesCache_draw exec s) = Ok tt -> all_return exec order (host s)).
Proof.
  intros E. destruct (draw_hit_trace s E) as (l & L & P & F & _ & R).
  pose proof (draw_hit_result s E) as Q. cbv zeta in *. unfold hit_order in *.
  exists l. split; [exact L|]. split; [exact F|]. split; [exact P|].
  split; [exact R|]. split.
  - intros A. apply Q in A. split; [exact A|exact (R A)].
  - intros A. apply Q. exact A.
Qed.

Lemma linear_scales_spec h : linear_scales h = true <-> both_linear h.
Proof.
  unfold linear_scales, both_linear.
  rewrite andb_true_iff, !String.eqb_eq. reflexivity.
Qed.

(** C4.  A draw of a capture makes one rendering call: the image when
    both scales of the axes are linear at that moment, the mesh
    otherwise.  The scales are those of the state the call is made in,
    so the same capture drawn in a state with linear scales and in one
    with another scale takes the image path first and the mesh path
    then; the slot is not touched. *)
Theorem RenderCapture_draw_scale_mode rc s :
  let s' := snd (RenderCapture_draw exec rc s) in
  (exists c,
      log s' = log s ++ [c] /\
      (c = AxesImage_draw (im rc) \/ c = QuadMesh_draw (mesh rc)) /\
      (is_AxesImage_draw c = true <-> both_linear (host s)) /\
      (is_QuadMesh_draw c = true <-> ~ both_linear (host s))) /\
  overview_img s' = overview_img s /\
  (forall s2,
      both_linear (host s) -> ~ both_linear (host s2) ->
      log s' = log s ++ [AxesImage_draw (im rc)] /\
      log (snd (RenderCapture_draw exec rc s2))
      = log s2 ++ [QuadMesh_draw (mesh rc)]).
Proof.
  cbv zeta.
  assert (K : forall t,
             log (snd (RenderCapture_draw exec rc t))
             = log t ++ [if linear_scales (host t)
                         then AxesImage_draw (im rc)
                         else QuadMesh_draw (mesh rc)] /\
             overview_img (snd (RenderCapture_draw exec rc t))
             = overview_img t).
  { intros t. rewrite RenderCapture_draw_eq, call_eq. split; reflexivity. }
  split; [|split].
  - destruct (K s) as [L _]. eexists. split; [exact L|].
    pose proof (linear_scales_spec (host s)) as B.
    destruct (linear_scales (host s)); cbn.
    + split; [now left|]. split; [tauto|]. split; [discriminate|tauto].
    + split; [now right|].
      split; [split; [discriminate|]|split; [intros _|reflexivity]].
      * intros H. apply B in H. discriminate.
      * intros H. apply B in H. discriminate.
  - apply K.
  - intros s2 B1 B2. destruct (K s) as [L1 _], (K s2) as [L2 _].
    apply linear_scales_spec in B1. rewrite B1 in L1.
    destruct (linear_scales (host s2)) eqn:E2.
    + apply linear_scales_spec in E2. tauto.
    + tauto.
Qed.

Lemma repeat_draws_slot (m : M Data unit) (o : option (RenderCapture Data)) :
  (forall t, overview_img t = o -> overview_img (snd (m t)) = o) ->
  forall n s, overview_img s = o -> overview_img (repeat_draws n m s) = o.
Proof.
  intros K n. induction n as [|n IH]; intros s E; cbn; [assumption|].
  apply IH, K, E.
Qed.

(** C9.  Drawing does not touch the cache: after any number of draws of
    a capture the slot is what it was, and after any number of draw
    requests on a filled slot the slot holds the same capture, with the
    image, extent and mesh it was constructed with. *)
Theorem draw_keeps_capture (n : nat) rc s :
  overview_img (repeat_draws n (RenderCapture_draw exec rc) s)
  = overview_img s /\
  (overview_img s = Some rc ->
   overview_img (repeat_draws n (AxesCache_draw exec) s) = Some rc).
Proof.
  split.
  - apply repeat_draws_slot; [|reflexivity].
    intros t E. rewrite RenderCapture_draw_eq, call_eq. exact E.
  - apply repeat_draws_slot.
    intros t E. destruct (draw_hit_trace t E) as (l & _ & _ & _ & O & _).
    exact O.
Qed.

(** The handlers of an event, run in turn. *)
Lemma handlers_reset (l : list (string * Handler)) s :
  let s' := snd (for_each l (fun c => run_handler (snd c)) s) in
  host s' = host s /\ log s' = log s /\
  overview_img s' = match l with [] => overview_img s | _ => None end.
Proof.
  revert s. induction l as [|[k []] l IH]; intros s; cbn.
  - repeat split.
  - unfold bind. cbn.
    match goal with |- context [for_each l _ ?s1] =>
      destruct (IH s1) as (H & L & O) end.
    cbn in H, L, O. rewrite H, L, O. repeat split.
    destruct l; reflexivity.
Qed.

(** C5.  Reset empties the slot from any state and returns; a second
    reset changes nothing; a button-release event delivered to a canvas
    on which the cache is connected empties the slot, and attaching a
    cache connects it; the draw request that follows a reset (or two)
    invokes the full draw. *)
Theorem AxesCache_reset_idempotent s :
  let s1 := snd (AxesCache_reset s) in
  let s2 := snd (AxesCache_reset s1) in
  overview_img s1 = None /\ overview_img s2 = None /\ s2 = s1 /\
  fst (AxesCache_reset s) = Ok tt /\
  (In ("button_release_event"%string, reset_lambda) (callbacks (host s)) ->
   overview_img (snd (canvas_process "button_release_event" s)) = None) /\
  In ("button_release_event"%string, reset_lambda)
     (callbacks (host (snd (AxesCache_init s)))) /\
  log (snd (AxesCache_draw exec s1)) = log s ++ [Axes_draw] /\
  log (snd (AxesCache_draw exec s2)) = log s ++ [Axes_draw].
Proof.
  cbv zeta. unfold AxesCache_reset, put_overview_img. cbn [fst snd].
  repeat split.
  - intros H. unfold canvas_process, bind, get_host.
    match goal with |- context [for_each ?l _ s] =>
      destruct (handlers_reset l s) as (_ & _ & O);
      assert (N : In ("button_release_event"%string, @reset_lambda) l)
    end.
    { apply filter_In. split; [exact H|reflexivity]. }
    cbv zeta in O. rewrite O.
    destruct (filter _ _); [destruct N|reflexivity].
  - unfold AxesCache_init, AxesCache_refresh_on_mouseup, mpl_connect,
      bind, get_host, put_axes, put_callbacks, put_overview_img.
    cbn. apply in_or_app. right. now left.
  - match goal with |- context [AxesCache_draw exec ?t] =>
      rewrite (draw_miss_log t) by reflexivity end.
    reflexivity.
  - match goal with |- context [AxesCache_draw exec ?t] =>
      rewrite (draw_miss_log t) by reflexivity end.
    reflexivity.
Qed.

End CacheFacts.

(** ** Claims on the capture *)

Section CaptureClaims.

Variable Data : Type.

Implicit Types (h : Host Data) (s : State Data) (rc : RenderCapture Data).

(** C2 (amended).  For a view whose corners map to a device-pixel
    rectangle of width W and height H, both above 10, the box of the
    capture runs over the W - 10 columns x0 + 5, ..., x1 - 6 and the
    H - 10 rows y0 + 5, ..., y1 - 6: 5 pixels are left out on each of
    the four edges.  When that box lies inside the renderer's buffer,
    and the buffer has the renderer's size, the cropped pixel array has
    H - 10 rows of W - 10 pixels. *)
Theorem RenderCapture_inset_span h x0 y0 x1 y1 :
  device_corners (axes h) = ((x0, y0), (x1, y1)) ->
  let W := x1 - x0 in
  let H := y1 - y0 in
  W > 10 -> H > 10 ->
  exists px py dx dy,
    RenderCapture_get_corners (axes h) = (px, py, dx, dy) /\
    px = arange (x0 + 5) (x1 - 5) /\ py = arange (y0 + 5) (y1 - 5) /\
    Z.of_nat (List.length px) = W - 10 /\
    Z.of_nat (List.length py) = H - 10 /\
    Z.of_nat (List.length dx) = W - 10 /\
    Z.of_nat (List.length dy) = H - 10 /\
    index px 0 = Ok (x0 + 5) /\ index px (-1) = Ok (x1 - 5 - 1) /\
    index py 0 = Ok (y0 + 5) /\ index py (-1) = Ok (y1 - 5 - 1) /\
    (buffer_ok (renderer h) = true -> inset_in_buffer h = true ->
     exists im1,
       RenderCapture_crop h = Ok im1 /\ has_shape im1 (H - 10) (W - 10)).
Proof.
  intros E W H HW HH. subst W H.
  pose proof (inset_of_device E) as I.
  do 4 eexists. split; [apply (get_corners_eq I)|].
  rewrite !length_map, !arange_length.
  rewrite !index_arange_first, !index_arange_last by lia.
  repeat (split; [first [reflexivity|lia]|]).
  intros B N. unfold inset_in_buffer in N. rewrite I in N.
  apply andb_true_iff in N. destruct N as [N N4].
  apply andb_true_iff in N. destruct N as [N N3].
  apply andb_true_iff in N. destruct N as [N1 N2].
  apply Z.leb_le in N1, N2, N3, N4.
  unfold buffer_ok in B.
  apply andb_true_iff in B. destruct B as [B B3].
  apply andb_true_iff in B. destruct B as [B1 B2].
  apply Z.leb_le in B1, B2. apply Z.eqb_eq in B3.
  destruct (reshape_ok _ B1 B2 B3) as [im0 R].
  exists (crop im0 (y0 + 5) (y1 - 5) (x0 + 5) (x1 - 5)). split.
  - apply crop_nondegenerate; try assumption; lia.
  - replace (y1 - y0 - 10) with (y1 - 5 - (y0 + 5)) by lia.
    replace (x1 - x0 - 10) with (x1 - 5 - (x0 + 5)) by lia.
    eapply crop_shape; [apply (reshape_shape _ _ _ R)|..]; lia.
Qed.

(** C10.  The constructor, whether it returns or raises, leaves the
    collections of the axes as they were, and the mesh of a capture it
    returns is not among them: when [pcolormesh] returns, the mesh is
    registered at the end of the collections under an identity no
    registered artist has, and [collections.remove] then returns and
    takes exactly that entry out again. *)
Theorem RenderCapture_init_collections s :
  collections (axes (host (snd (RenderCapture_init s))))
  = collections (axes (host s)) /\
  (forall rc s',
      RenderCapture_init s = (Ok rc, s') ->
      ~ In (mesh_id (mesh rc)) (collections (axes (host s')))) /\
  (forall X Y C cmap m s1,
      pcolormesh X Y C cmap s = (Ok m, s1) ->
      ~ In (mesh_id m) (collections (axes (host s))) /\
      collections (axes (host s1))
      = collections (axes (host s)) ++ [mesh_id m] /\
      fst (collections_remove m s1) = Ok tt /\
      collections (axes (host (snd (collections_remove m s1))))
      = collections (axes (host s))).
Proof.
  split; [now rewrite RenderCapture_init_frame|]. split.
  - intros rc s' I.
    pose proof (RenderCapture_init_frame s) as F. rewrite I in F.
    cbn [snd] in F. subst s'.
    destruct (RenderCapture_crop (host s)) as [im1|e] eqn:C;
      [|rewrite (RenderCapture_init_raise s C) in I; discriminate].
    revert I. unfold RenderCapture_init, bind, get_host, lift. rewrite C.
    destruct (RenderCapture_get_corners (axes (host s)))
      as [[[px py] dx] dy].
    unfold pcolormesh, collections_remove, bind, get_host, put_axes, ret,
      lift.
    cbn [host axes collections with_collections mesh_id fst snd].
    rewrite list_remove_fresh.
    destruct (index dx 0); [|discriminate].
    destruct (index dx (-1)); [|discriminate].
    destruct (index dy 0); [|discriminate].
    destruct (index dy (-1)); [|discriminate].
    intros [= <- _]. cbn [mesh mesh_id].
    intros H. apply fresh_above in H. lia.
  - intros X Y C cmap m s1.
    unfold pcolormesh, bind, get_host, put_axes, ret. cbv beta iota zeta.
    intros [= <- <-]. cbn. split; [|split; [reflexivity|]].
    + intros H. apply fresh_above in H. lia.
    + unfold collections_remove, bind, get_host, lift, put_axes. cbn.
      rewrite list_remove_fresh. cbn. split; reflexivity.
Qed.

Lemma inject_Z_pred (c : Z) : inject_Z (c - 1) == inject_Z c - 1.
Proof.
  unfold Qeq, Qminus, Qplus, Qopp, inject_Z. cbn. lia.
Qed.

Lemma Qabs_one_more (t eps : Q) (c : Z) :
  (Qabs (t - inject_Z (c - 1)) <= eps)%Q ->
  (Qabs (t - inject_Z c) <= 1 + eps)%Q.
Proof.
  intros H.
  assert (E : t - inject_Z c == (t - inject_Z (c - 1)) + - (1))
    by (rewrite inject_Z_pred; ring).
  rewrite E. eapply Qle_trans; [apply Qabs_triangle|].
  rewrite Qabs_opp. change (Qabs 1) with 1%Q.
  rewrite Qplus_comm. apply Qplus_le_r. exact H.
Qed.

(** An exact inverse that treats the axes separately is per axis and
    comes back within 0. *)
Lemma exact_within_zero (a : Axes Data) :
  separable (transData a) -> exact_inverse (transData a) ->
  per_axis a /\ round_trip_within 0 a.
Proof.
  intros Sep Inv. split.
  - intros p q _.
    destruct (Sep (inject_Z p) (inject_Z p) (inject_Z p) (inject_Z q))
      as [Ex _].
    destruct (Sep (inject_Z q) (inject_Z q) (inject_Z p) (inject_Z q))
      as [_ Ey].
    split; assumption.
  - intros p q _. cbv zeta.
    destruct (Inv (inject_Z p, inject_Z q)) as [F S].
    cbn [fst snd] in F, S. rewrite F, S.
    split; apply Qabs_Qle_condition;
      unfold Qle, Qminus, Qplus, Qopp, inject_Z; cbn; lia.
Qed.

(** C8 (amended).  For a capture that was constructed, when the inverse
    transform acts per axis on the pixels of the inset box and the inverse
    followed by the transform comes back within eps of each such pixel,
    the stored extent (dx[0], dx[-1], dy[0], dy[-1]) maps back to the
    lower inset corner within eps and to the upper inset corner within
    1 + eps, in each coordinate: the extent ends at the last column and
    row of the box, one pixel short of the upper corner. *)
Theorem RenderCapture_extent_fidelity s s' rc (eps : Q) :
  RenderCapture_init s = (Ok rc, s') ->
  let a := axes (host s) in
  let T := transData a in
  per_axis a -> round_trip_within eps a ->
  exists e0 e1 e2 e3 cx0 cy0 cx1 cy1,
    im_extent (im rc) = Some (e0, e1, e2, e3) /\
    inset_corners a = ((cx0, cy0), (cx1, cy1)) /\
    (Qabs (fst (transform T (e0, e2)) - inject_Z cx0) <= eps)%Q /\
    (Qabs (snd (transform T (e0, e2)) - inject_Z cy0) <= eps)%Q /\
    (Qabs (fst (transform T (e1, e3)) - inject_Z cx1) <= 1 + eps)%Q /\
    (Qabs (snd (transform T (e1, e3)) - inject_Z cy1) <= 1 + eps)%Q.
Proof.
  intros I a T Sep Inv.
  destruct (RenderCapture_crop (host s)) as [im1|e] eqn:C;
    [|rewrite (RenderCapture_init_raise s C) in I; discriminate].
  destruct (inset_corners (axes (host s))) as [[cx0 cy0] [cx1 cy1]] eqn:E.
  destruct (nondegenerate_corners _ E (crop_ok_nondegenerate _ C))
    as [Hx Hy].
  destruct (RenderCapture_init_ok s E C) as (rc' & R & _ & X & _).
  rewrite R in I. injection I as -> ->. cbv zeta in X. fold a T in X.
  assert (B0 : in_box a cx0 cy0)
    by (unfold in_box, a; rewrite E; lia).
  assert (B1 : in_box a (cx1 - 1) (cy1 - 1))
    by (unfold in_box, a; rewrite E; lia).
  assert (P : forall p q,
             in_box a p q ->
             (fst (inverted T (inject_Z p, inject_Z p)),
              snd (inverted T (inject_Z q, inject_Z q)))
             = inverted T (inject_Z p, inject_Z q)).
  { intros p q B. destruct (Sep p q B) as [Ex Ey]. fold T in Ex, Ey.
    rewrite Ex, Ey. symmetry. apply surjective_pairing. }
  exists (fst (inverted T (inject_Z cx0, inject_Z cx0))),
    (fst (inverted T (inject_Z (cx1 - 1), inject_Z (cx1 - 1)))),
    (snd (inverted T (inject_Z cy0, inject_Z cy0))),
    (snd (inverted T (inject_Z (cy1 - 1), inject_Z (cy1 - 1)))),
    cx0, cy0, cx1, cy1.
  split; [exact X|]. split; [exact E|].
  rewrite (P _ _ B0), (P _ _ B1).
  destruct (Inv _ _ B0) as [F0 S0]. destruct (Inv _ _ B1) as [F1 S1].
  cbv zeta in F0, S0, F1, S1. fold T in F0, S0, F1, S1.
  split; [exact F0|]. split; [exact S0|].
  split; apply Qabs_one_more; assumption.
Qed.

End CaptureClaims.

(** * The properties at concrete hosts *)

Import Scenario.

(** Scenario 1 of the specification, at 12 x 12 pixels: the first draw
    fills the slot with one full draw. *)
Example first_draw_fills :
  AxesCache_draw exec_ok (start square) = (Ok tt, filled square).
Proof. vm_compute. reflexivity. Qed.

(** C1 as stated fails on a view 10 pixels wide: the slot is empty, the
    full draw returns, and after the draw request the slot is still
    empty. *)
Lemma draw_miss_leaves_slot_empty :
  overview_img (start narrow) = None /\
  exec_ok Axes_draw (host (start narrow)) = (Ok tt, host_of narrow) /\
  log (snd (AxesCache_draw exec_ok (start narrow))) = [Axes_draw] /\
  fst (AxesCache_draw exec_ok (start narrow)) = Raise IndexError /\
  overview_img (snd (AxesCache_draw exec_ok (start narrow))) = None.
Proof. vm_compute. repeat split. Qed.

Lemma AxesCache_draw_miss_hit_witness :
  (overview_img (start square) = None /\
   exec_ok Axes_draw (host (start square)) = (Ok tt, host_of square) /\
   capturable (host_of square) = true /\
   exists rc,
     fst (AxesCache_draw exec_ok (start square)) = Ok tt /\
     overview_img (snd (AxesCache_draw exec_ok (start square))) = Some rc) /\
  (overview_img (filled square) = Some square_capture /\
   overview_img (snd (AxesCache_draw exec_ok (filled square)))
   = Some square_capture).
Proof.
  pose proof (@AxesCache_draw_miss_hit Q exec_ok (start square)) as T.
  pose proof (@AxesCache_draw_miss_hit Q exec_ok (filled square)) as U.
  cbv zeta in T, U. destruct T as [T _]. destruct U as [_ U].
  assert (C : capturable (host_of square) = true)
    by (vm_compute; reflexivity).
  split.
  - destruct (T eq_refl) as (_ & _ & K).
    destruct (K (host_of square) eq_refl C) as (rc & _ & R & O).
    split; [reflexivity|]. split; [reflexivity|]. split; [exact C|].
    exists rc. split; [exact R|exact O].
  - split; [reflexivity|]. exact (proj2 (U square_capture eq_refl)).
Defined.

(** C3 as stated fails on the same view: the request is not the full
    draw alone; the constructor is entered after the full draw and its
    IndexError leaves the request. *)
Lemma draw_degenerate_raises :
  degenerate (host_of narrow) = true /\
  call exec_ok Axes_draw (start narrow)
  = (Ok tt, after_full_draw (start narrow) (host_of narrow)) /\
  RenderCapture_init (after_full_draw (start narrow) (host_of narrow))
  = (Raise IndexError, after_full_draw (start narrow) (host_of narrow)) /\
  AxesCache_draw exec_ok (start narrow)
  = (Raise IndexError, after_full_draw (start narrow) (host_of narrow)).
Proof. vm_compute. repeat split. Qed.

Lemma AxesCache_draw_degenerate_witness :
  overview_img (start narrow) = None /\
  exec_ok Axes_draw (host (start narrow)) = (Ok tt, host_of narrow) /\
  degenerate (host_of narrow) = true /\
  buffer_ok (renderer (host_of narrow)) = true /\
  AxesCache_draw exec_ok (start narrow)
  = (Raise IndexError, after_full_draw (start narrow) (host_of narrow)).
Proof.
  assert (D : degenerate (host_of narrow) = true)
    by (vm_compute; reflexivity).
  assert (B : buffer_ok (renderer (host_of narrow)) = true)
    by (vm_compute; reflexivity).
  destruct (@AxesCache_draw_degenerate Q exec_ok (start narrow)
              (host_of narrow) eq_refl eq_refl D) as (e & R & _ & K).
  split; [reflexivity|]. split; [reflexivity|].
  split; [exact D|]. split; [exact B|].
  rewrite <- (K B). exact R.
Defined.

Lemma AxesCache_draw_full_draw_raises_witness :
  overview_img (start square) = None /\
  exec_fail Axes_draw (host (start square))
  = (Raise (HostError 1), host_of square) /\
  AxesCache_draw exec_fail (start square)
  = (Raise (HostError 1), after_full_draw (start square) (host_of square)) /\
  overview_img (snd (AxesCache_draw exec_fail (start square))) = None.
Proof.
  destruct (@AxesCache_draw_full_draw_raises Q exec_fail (start square)
              eq_refl) as [K _].
  destruct (K (HostError 1) (host_of square) eq_refl) as [R O].
  split; [reflexivity|]. split; [reflexivity|].
  split; [exact R|exact O].
Defined.

Lemma AxesCache_draw_hit_order_witness :
  overview_img (filled square) = Some square_capture /\
  all_return exec_ok
    [axesPatch_draw; AxesImage_draw (im square_capture);
     xaxis_draw; yaxis_draw;
     Spine_draw "left"; Spine_draw "right";
     Spine_draw "bottom"; Spine_draw "top"] (host (filled square)) /\
  fst (AxesCache_draw exec_ok (filled square)) = Ok tt /\
  log (snd (AxesCache_draw exec_ok (filled square)))
  = log (filled square)
    ++ [axesPatch_draw; AxesImage_draw (im square_capture);
        xaxis_draw; yaxis_draw;
        Spine_draw "left"; Spine_draw "right";
        Spine_draw "bottom"; Spine_draw "top"].
Proof.
  assert (A : all_return exec_ok
                [axesPatch_draw; AxesImage_draw (im square_capture);
                 xaxis_draw; yaxis_draw;
                 Spine_draw "left"; Spine_draw "right";
                 Spine_draw "bottom"; Spine_draw "top"]
                (host (filled square)))
    by (cbn; repeat split).
  destruct (@AxesCache_draw_hit_order Q exec_ok (filled square)
              square_capture eq_refl) as (l & L & _ & _ & _ & K & _).
  destruct (K A) as [R O].
  split; [reflexivity|]. split; [exact A|]. split; [exact R|].
  rewrite L, O. reflexivity.
Defined.

Lemma RenderCapture_draw_scale_mode_witness :
  both_linear (host (filled square)) /\
  ~ both_linear (host (filled square_logy)) /\
  log (snd (RenderCapture_draw exec_ok square_capture (filled square)))
  = [Axes_draw; AxesImage_draw (im square_capture)] /\
  log (snd (RenderCapture_draw exec_ok square_capture (filled square_logy)))
  = [Axes_draw; QuadMesh_draw (mesh square_capture)].
Proof.
  assert (B1 : both_linear (host (filled square)))
    by (split; reflexivity).
  assert (B2 : ~ both_linear (host (filled square_logy)))
    by (intros [_ H]; discriminate H).
  destruct (@RenderCapture_draw_scale_mode Q exec_ok square_capture
              (filled square)) as (_ & _ & K).
  destruct (K (filled square_logy) B1 B2) as [L1 L2].
  split; [exact B1|]. split; [exact B2|].
  split; [exact L1|exact L2].
Defined.

Lemma draw_keeps_capture_witness :
  overview_img (filled square) = Some square_capture /\
  overview_img (repeat_draws 3 (AxesCache_draw exec_ok) (filled square))
  = Some square_capture.
Proof.
  split; [reflexivity|].
  apply (@draw_keeps_capture Q exec_ok 3 square_capture (filled square)).
  reflexivity.
Defined.

Lemma AxesCache_reset_idempotent_witness :
  In ("button_release_event"%string, reset_lambda)
     (callbacks (host (filled square))) /\
  overview_img (snd (canvas_process "button_release_event" (filled square)))
  = None.
Proof.
  assert (H : In ("button_release_event"%string, reset_lambda)
                 (callbacks (host (filled square))))
    by (left; reflexivity).
  split; [exact H|].
  destruct (@AxesCache_reset_idempotent Q exec_ok (filled square))
    as (_ & _ & _ & _ & K & _).
  exact (K H).
Defined.

(** C2 as stated fails on an axes that starts left of the canvas: the
    view is 22 by 12 device pixels and the box has its 12 columns and 2
    rows, but its first column is -5, which the slice counts from the
    right edge of the 12 pixel wide buffer: the cropped array has 2 rows
    of no pixel, not of 12. *)
Lemma RenderCapture_crop_off_canvas :
  device_corners off_canvas = ((-10, 0), (12, 12)) /\
  12 - -10 > 10 /\ 12 - 0 > 10 /\
  fst (fst (fst (RenderCapture_get_corners off_canvas)))
  = [-5; -4; -3; -2; -1; 0; 1; 2; 3; 4; 5; 6] /\
  RenderCapture_crop (host_of off_canvas) = Ok [[]; []] /\
  ~ has_shape [[]; []] (12 - 0 - 10) (12 - -10 - 10).
Proof.
  repeat split; try (vm_compute; reflexivity).
  intros [_ H]. inversion H as [|? ? H1 _]. discriminate H1.
Qed.

Lemma RenderCapture_inset_span_witness :
  device_corners (axes (host_of square)) = ((0, 0), (12, 12)) /\
  12 - 0 > 10 /\
  buffer_ok (renderer (host_of square)) = true /\
  inset_in_buffer (host_of square) = true /\
  exists im1,
    RenderCapture_crop (host_of square) = Ok im1 /\
    has_shape im1 (12 - 0 - 10) (12 - 0 - 10).
Proof.
  assert (E : device_corners (axes (host_of square)) = ((0, 0), (12, 12)))
    by (vm_compute; reflexivity).
  assert (G : 12 - 0 > 10) by reflexivity.
  assert (B : buffer_ok (renderer (host_of square)) = true)
    by (vm_compute; reflexivity).
  assert (N : inset_in_buffer (host_of square) = true)
    by (vm_compute; reflexivity).
  destruct (@RenderCapture_inset_span Q (host_of square) 0 0 12 12 E G G)
    as (px & py & dx & dy & K).
  do 11 (destruct K as [_ K]).
  split; [exact E|]. split; [exact G|]. split; [exact B|].
  split; [exact N|]. exact (K B N).
Defined.

Lemma linear_exact_inverse : exact_inverse (linear 2 0).
Proof.
  intros [p q]. cbn. split; field.
Defined.

Lemma linear_separable : separable (linear 2 0).
Proof.
  intros p q p' q'. split; reflexivity.
Defined.

(** C8 as stated fails under a transform that mixes the axes: the view
    is 24 by 12 device pixels, the inset corners are (5, 5) and (19, 7),
    the stored extent is (0, 0, 5, 6), and its upper corner (0, 6) maps
    back to the device point (6, 6), 13 pixels from 19. *)
Lemma extent_off_under_shear :
  exists rc,
    RenderCapture_init
      {| host := sheared; log := []; overview_img := None |}
    = (Ok rc, {| host := sheared; log := []; overview_img := None |}) /\
    inset_corners (axes sheared) = ((5, 5), (19, 7)) /\
    im_extent (im rc) = Some (0, 0, 5, 6)%Q /\
    transform shear (0, 6)%Q = (6, 6)%Q /\
    ~ (Qabs (fst (transform (transData (axes sheared)) (0, 6)%Q)
             - inject_Z 19) <= 1)%Q.
Proof.
  eexists. split; [vm_compute; reflexivity|].
  split; [vm_compute; reflexivity|].
  split; [vm_compute; reflexivity|].
  split; [vm_compute; reflexivity|].
  vm_compute. intros H. apply H. reflexivity.
Qed.

(** The view [square], whose inverse is exact, comes back within 0. *)
Example square_within_zero : per_axis square /\ round_trip_within 0 square.
Proof.
  exact (@exact_within_zero Q square linear_separable linear_exact_inverse).
Qed.

Lemma coarse_per_axis : per_axis coarse_axes.
Proof.
  intros p q _. split; reflexivity.
Defined.

Lemma coarse_round_trip : round_trip_within (7 # 1000) coarse_axes.
Proof.
  intros p q B.
  assert (E : inset_corners coarse_axes = ((5, 5), (7, 7)))
    by (vm_compute; reflexivity).
  unfold in_box in B. rewrite E in B.
  assert (Hp : p = 5 \/ p = 6) by lia.
  assert (Hq : q = 5 \/ q = 6) by lia.
  destruct Hp as [-> | ->], Hq as [-> | ->];
    vm_compute; split; intros H; discriminate H.
Defined.

Lemma RenderCapture_extent_fidelity_witness :
  exists rc,
    RenderCapture_init (start coarse_axes) = (Ok rc, start coarse_axes) /\
    per_axis (axes (host (start coarse_axes))) /\
    round_trip_within (7 # 1000) (axes (host (start coarse_axes))) /\
    exists e0 e1 e2 e3 cx0 cy0 cx1 cy1,
      im_extent (im rc) = Some (e0, e1, e2, e3) /\
      inset_corners (axes (host (start coarse_axes)))
      = ((cx0, cy0), (cx1, cy1)) /\
      (Qabs (fst (transform coarse (e0, e2)) - inject_Z cx0)
       <= 7 # 1000)%Q /\
      (Qabs (snd (transform coarse (e0, e2)) - inject_Z cy0)
       <= 7 # 1000)%Q /\
      (Qabs (fst (transform coarse (e1, e3)) - inject_Z cx1)
       <= 1 + (7 # 1000))%Q /\
      (Qabs (snd (transform coarse (e1, e3)) - inject_Z cy1)
       <= 1 + (7 # 1000))%Q.
Proof.
  assert (I : exists rc, RenderCapture_init (start coarse_axes)
                         = (Ok rc, start coarse_axes))
    by (vm_compute; eexists; reflexivity).
  destruct I as [rc I]. exists rc.
  split; [exact I|]. split; [exact coarse_per_axis|].
  split; [exact coarse_round_trip|].
  exact (@RenderCapture_extent_fidelity Q (start coarse_axes)
           (start coarse_axes) rc (7 # 1000) I coarse_per_axis
           coarse_round_trip).
Defined.

(** On [coarse_axes], an ordinary linear view whose inverse is cut to
    three decimals, the upper corner of the extent maps back to 5.999,
    more than one pixel from 7. *)
Example extent_off_by_rounding :
  exists rc,
    RenderCapture_init (start coarse_axes) = (Ok rc, start coarse_axes) /\
    im_extent (im rc)
    = Some (714 # 1000, 857 # 1000, 714 # 1000, 857 # 1000) /\
    ~ (Qabs (fst (transform coarse (857 # 1000, 857 # 1000)) - inject_Z 7)
       <= 1)%Q.
Proof.
  eexists. split; [vm_compute; reflexivity|].
  split; [vm_compute; reflexivity|].
  vm_compute. intros H. apply H. reflexivity.
Qed.

Lemma RenderCapture_init_collections_witness :
  RenderCapture_init (start square) = (Ok square_capture, start square) /\
  ~ In (mesh_id (mesh square_capture))
       (collections (axes (host (start square)))) /\
  collections (axes (host (snd (RenderCapture_init (start square)))))
  = [7%nat].
Proof.
  assert (I : RenderCapture_init (start square)
              = (Ok square_capture, start square))
    by (vm_compute; reflexivity).
  destruct (@RenderCapture_init_collections Q (start square))
    as (K & N & _).
  split; [exact I|]. split; [exact (N _ _ I)|exact K].
Defined.

(** The collections of [square], the scatter plot alone, before and
    after a capture is constructed. *)
Example capture_leaves_collections :
  collections (axes (host (snd (RenderCapture_init (start square)))))
  = [7%nat].
Proof. vm_compute. reflexivity. Qed.

(** Scenarios 1 and 2 of the specification: draw, draw, button release,
    draw; the full draw is invoked by the first and the last. *)
Example draw_draw_release_draw :
  let s1 := snd (axes_draw_request exec_ok (start square)) in
  let s2 := snd (axes_draw_request exec_ok s1) in
  let s3 := snd (canvas_process "button_release_event" s2) in
  let s4 := snd (axes_draw_request exec_ok s3) in
  (full_draws (log s1), full_draws (log s2), full_draws (log s4))
  = (1%nat, 1%nat, 2%nat) /\
  overview_img s2 = Some square_capture /\
  overview_img s3 = None /\
  overview_img s4 = Some square_capture.
Proof. vm_compute. repeat split. Qed.

(** * Further properties of the code *)

(** ** The pixel buffer and its crop *)

Section BufferFacts.

Variable Data : Type.

Implicit Types (h : Host Data) (r : Renderer).

Lemma pixels_bytes (k : nat) (l : list byte) :
  List.length l = (4 * k)%nat -> flat_map pixel_bytes (pixels k l) = l.
Proof.
  revert l; induction k as [|k IH]; intros l H.
  - destruct l; [reflexivity|discriminate].
  - destruct l as [|r [|g [|b [|a t]]]]; simpl in H; try lia.
    cbn. rewrite IH by lia. reflexivity.
Qed.

Lemma rows_concat {A} (k w : nat) (l : list A) :
  List.length l = (k * w)%nat -> List.concat (rows k w l) = l.
Proof.
  revert l; induction k as [|k IH]; intros l H; cbn.
  - destruct l; [reflexivity|discriminate].
  - rewrite IH by (rewrite length_skipn; lia). apply firstn_skipn.
Qed.

Lemma flat_map_rows {A B} (f : A -> list B) (L : list (list A)) :
  flat_map (flat_map f) L = flat_map f (List.concat L).
Proof.
  induction L as [|x L IH]; cbn; [reflexivity|].
  now rewrite flat_map_app, IH.
Qed.

(** X1.  [extract_image] on a renderer of non-negative size: when the
    buffer has height * width * 4 bytes the result is an array of
    [height] rows of [width] pixels; with any other number of bytes the
    reshape raises ValueError. *)
Theorem extract_image_size r :
  0 <= height r -> 0 <= width r ->
  (Z.of_nat (List.length (buffer_rgba r)) = height r * width r * 4 ->
   exists im,
     RenderCapture_extract_image r = Ok im /\
     has_shape im (height r) (width r)) /\
  (Z.of_nat (List.length (buffer_rgba r)) <> height r * width r * 4 ->
   RenderCapture_extract_image r = Raise ValueError).
Proof.
  intros Hh Hw. unfold RenderCapture_extract_image. split; intros Hb.
  - destruct (reshape_ok _ Hh Hw Hb) as [im R].
    exists im. split; [exact R|]. exact (reshape_shape _ _ _ R).
  - unfold reshape. zcases. reflexivity.
Qed.

(** X2.  [extract_image] loses and reorders nothing: the array it
    returns, read row by row, pixel by pixel, channel by channel, is the
    renderer's buffer. *)
Theorem extract_image_flatten r (im : image) :
  RenderCapture_extract_image r = Ok im -> flatten im = buffer_rgba r.
Proof.
  unfold RenderCapture_extract_image, reshape, flatten.
  destruct (Z.leb_spec 0 (height r)) as [Hh|]; [|discriminate].
  destruct (Z.leb_spec 0 (width r)) as [Hw|]; [|discriminate].
  destruct (Z.eqb_spec (Z.of_nat (List.length (buffer_rgba r)))
              (height r * width r * 4)) as [Hb|]; [|discriminate].
  cbn [andb]. intros [= <-].
  rewrite flat_map_rows, rows_concat.
  - apply pixels_bytes. nia.
  - rewrite pixels_length; nia.
Qed.

Lemma nth_error_slice {A} (l : list A) (a b : Z) (i : nat) :
  0 <= a <= b -> b <= Z.of_nat (List.length l) -> Z.of_nat i < b - a ->
  nth_error (slice l a b) i = nth_error l (Z.to_nat a + i).
Proof.
  intros Ha Hb Hi. unfold slice. rewrite !clip_inside by lia.
  rewrite nth_error_firstn.
  destruct (Nat.ltb_spec i (Z.to_nat (b - a))); [|lia].
  apply nth_error_skipn.
Qed.

Lemma pixel_at_crop (im : image) (hh ww r0 r1 c0 c1 : Z) (i j : nat) :
  has_shape im hh ww ->
  0 <= r0 <= r1 -> r1 <= hh -> 0 <= c0 <= c1 -> c1 <= ww ->
  Z.of_nat i < r1 - r0 -> Z.of_nat j < c1 - c0 ->
  exists p,
    pixel_at (crop im r0 r1 c0 c1) i j = Some p /\
    pixel_at im (Z.to_nat r0 + i) (Z.to_nat c0 + j) = Some p.
Proof.
  intros [Hh Hw] Hr0 Hr1 Hc0 Hc1 Hi Hj. unfold pixel_at, crop.
  rewrite nth_error_map, nth_error_slice by lia.
  destruct (nth_error im (Z.to_nat r0 + i)) as [row|] eqn:R.
  - cbn [option_map].
    assert (W : Z.of_nat (List.length row) = ww).
    { apply nth_error_In in R.
      exact (proj1 (Forall_forall _ im) Hw row R). }
    rewrite nth_error_slice by lia.
    destruct (nth_error row (Z.to_nat c0 + j)) as [p|] eqn:C.
    + exists p. split; reflexivity.
    + apply nth_error_None in C. lia.
  - apply nth_error_None in R. lia.
Qed.

(** X3.  When the inset box lies inside the buffer, the cropped array is
    that box of the extracted array: its pixel in row i and column j is
    the pixel of the buffer in row cy0 + i and column cx0 + j, for every
    row and column of the box. *)
Theorem RenderCapture_crop_pixels h (im0 im1 : image) cx0 cy0 cx1 cy1 :
  inset_corners (axes h) = ((cx0, cy0), (cx1, cy1)) ->
  inset_in_buffer h = true ->
  RenderCapture_extract_image (renderer h) = Ok im0 ->
  RenderCapture_crop h = Ok im1 ->
  forall i j : nat,
    Z.of_nat i < cy1 - cy0 -> Z.of_nat j < cx1 - cx0 ->
    exists p,
      pixel_at im1 i j = Some p /\
      pixel_at im0 (Z.to_nat cy0 + i) (Z.to_nat cx0 + j) = Some p.
Proof.
  intros E N X C i j Hi Hj.
  destruct (nondegenerate_corners _ E (crop_ok_nondegenerate _ C))
    as [Hx Hy].
  rewrite (crop_nondegenerate _ E X Hx Hy) in C. injection C as <-.
  unfold inset_in_buffer in N. rewrite E in N.
  apply andb_true_iff in N. destruct N as [N N4].
  apply andb_true_iff in N. destruct N as [N N3].
  apply andb_true_iff in N. destruct N as [N1 N2].
  apply Z.leb_le in N1, N2, N3, N4.
  eapply pixel_at_crop; try (apply (reshape_shape _ _ _ X)); lia.
Qed.

(** X4.  The crop raises in two cases only, on a renderer of
    non-negative size: ValueError when the buffer has not
    height * width * 4 bytes, and otherwise IndexError exactly when the
    view is at most 10 device pixels wide or high (a view whose corners
    come in descending order included).  A box that leaves the canvas
    does not raise. *)
Theorem RenderCapture_crop_errors h x0 y0 x1 y1 :
  0 <= height (renderer h) -> 0 <= width (renderer h) ->
  device_corners (axes h) = ((x0, y0), (x1, y1)) ->
  (buffer_ok (renderer h) = false ->
   RenderCapture_crop h = Raise ValueError) /\
  (buffer_ok (renderer h) = true -> x1 - x0 <= 10 \/ y1 - y0 <= 10 ->
   RenderCapture_crop h = Raise IndexError) /\
  (buffer_ok (renderer h) = true -> x1 - x0 > 10 -> y1 - y0 > 10 ->
   exists im1, RenderCapture_crop h = Ok im1).
Proof.
  intros Hh Hw E. pose proof (inset_of_device E) as I.
  split; [|split].
  - intros B. unfold RenderCapture_crop, RenderCapture_extract_image,
      reshape. unfold buffer_ok in B. rewrite B. reflexivity.
  - intros B D.
    assert (G : degenerate h = true).
    { unfold degenerate. rewrite I. apply orb_true_iff.
      destruct D; [left|right]; apply Z.leb_le; lia. }
    destruct (crop_degenerate h G) as (e & C & K).
    now rewrite C, (K B).
  - intros B Gx Gy. unfold buffer_ok in B.
    apply andb_true_iff in B. destruct B as [B B3].
    apply Z.eqb_eq in B3.
    destruct (reshape_ok _ Hh Hw B3) as [im0 R].
    eexists. apply (crop_nondegenerate _ I R); lia.
Qed.

End BufferFacts.

(** ** The grid of the capture *)

Section GridFacts.

Variable Data : Type.

Implicit Types (h : Host Data) (s : State Data) (a : Axes Data).

Lemma nth_error_arange (a b : Z) (i : nat) (p : Z) :
  nth_error (arange a b) i = Some p -> p = a + Z.of_nat i.
Proof.
  intros H. assert (L : (i < List.length (arange a b))%nat)
    by (apply nth_error_Some; congruence).
  unfold arange in *. rewrite arange_from_length in L.
  rewrite nth_error_arange_from in H by exact L. congruence.
Qed.

Lemma nth_error_arange_lt (a b : Z) (i : nat) :
  Z.of_nat i < b - a -> nth_error (arange a b) i = Some (a + Z.of_nat i).
Proof.
  intros H. unfold arange. apply nth_error_arange_from. lia.
Qed.

(** X5.  For every view, [_get_corners] returns as many columns as the
    view is wide beyond 10 device pixels and as many rows as it is high
    beyond 10 (none when it is not, or when its corners come in
    descending order), one data coordinate per column and per row, and
    the pixel positions go up in steps of one from the lower corner plus
    5. *)
Theorem get_corners_grid a x0 y0 x1 y1 :
  device_corners a = ((x0, y0), (x1, y1)) ->
  exists px py dx dy,
    RenderCapture_get_corners a = (px, py, dx, dy) /\
    Z.of_nat (List.length px) = Z.max 0 (x1 - x0 - 10) /\
    Z.of_nat (List.length py) = Z.max 0 (y1 - y0 - 10) /\
    List.length dx = List.length px /\
    List.length dy = List.length py /\
    (forall i p, nth_error px i = Some p -> p = x0 + 5 + Z.of_nat i) /\
    (forall j q, nth_error py j = Some q -> q = y0 + 5 + Z.of_nat j).
Proof.
  intros E. pose proof (inset_of_device E) as I.
  do 4 eexists. split; [apply (get_corners_eq I)|].
  rewrite !length_map, !arange_length.
  split; [lia|]. split; [lia|]. split; [reflexivity|].
  split; [reflexivity|].
  split; intros i p H; exact (nth_error_arange _ _ _ H).
Qed.

(** X7.  The arguments the constructor passes to [pcolormesh], for a
    view whose inset box is not empty and lies inside a well-sized
    buffer: the colour array is channel 0 of the stored image and has its
    H - 10 rows and W - 10 columns; X has one entry per column and Y one
    per row (not one more); and Y runs against the rows: mesh row k is
    placed at the data y of pixel row y1 - 6 - k. *)
Theorem RenderCapture_init_mesh s x0 y0 x1 y1 :
  device_corners (axes (host s)) = ((x0, y0), (x1, y1)) ->
  capturable (host s) = true ->
  let ty := fun p =>
    snd (inverted (transData (axes (host s))) (inject_Z p, inject_Z p)) in
  exists rc data,
    RenderCapture_init s = (Ok rc, s) /\
    im_data (im rc) = Some data /\
    has_shape data (y1 - y0 - 10) (x1 - x0 - 10) /\
    mesh_C (mesh rc) = first_channel data /\
    Z.of_nat (List.length (mesh_C (mesh rc))) = y1 - y0 - 10 /\
    Forall (fun row => Z.of_nat (List.length row) = x1 - x0 - 10)
           (mesh_C (mesh rc)) /\
    Z.of_nat (List.length (mesh_X (mesh rc))) = x1 - x0 - 10 /\
    Z.of_nat (List.length (mesh_Y (mesh rc))) = y1 - y0 - 10 /\
    (forall k : nat,
        Z.of_nat k < y1 - y0 - 10 ->
        nth_error (mesh_Y (mesh rc)) k
        = Some (ty (y1 - 6 - Z.of_nat k))).
Proof.
  intros E C ty. pose proof (inset_of_device E) as I.
  pose proof C as C'. unfold capturable in C'.
  apply andb_true_iff in C'. destruct C' as [C' N].
  apply andb_true_iff in C'. destruct C' as [B D].
  apply negb_true_iff in D.
  destruct (nondegenerate_corners _ I D) as [Hx Hy].
  unfold inset_in_buffer in N. rewrite I in N.
  apply andb_true_iff in N. destruct N as [N N4].
  apply andb_true_iff in N. destruct N as [N N3].
  apply andb_true_iff in N. destruct N as [N1 N2].
  apply Z.leb_le in N1, N2, N3, N4.
  unfold buffer_ok in B.
  apply andb_true_iff in B. destruct B as [B B3].
  apply andb_true_iff in B. destruct B as [B1 B2].
  apply Z.leb_le in B1, B2. apply Z.eqb_eq in B3.
  destruct (reshape_ok _ B1 B2 B3) as [im0 R].
  pose proof (crop_nondegenerate (host s) I R Hx Hy) as K.
  destruct (RenderCapture_init_ok s I K)
    as (rc & Irc & Dt & _ & MX & MY & MC).
  cbv zeta in MX, MY. fold ty in MY.
  assert (S : has_shape (crop im0 (y0 + 5) (y1 - 5) (x0 + 5) (x1 - 5))
                (y1 - y0 - 10) (x1 - x0 - 10)).
  { replace (y1 - y0 - 10) with (y1 - 5 - (y0 + 5)) by lia.
    replace (x1 - x0 - 10) with (x1 - 5 - (x0 + 5)) by lia.
    eapply crop_shape; [apply (reshape_shape _ _ _ R)|..]; lia. }
  exists rc, (crop im0 (y0 + 5) (y1 - 5) (x0 + 5) (x1 - 5)).
  split; [exact Irc|]. split; [exact Dt|]. split; [exact S|].
  split; [exact MC|].
  rewrite MC, MX, MY. unfold first_channel.
  rewrite length_rev, !length_map, !arange_length.
  destruct S as [S1 S2].
  split; [exact S1|]. split; [|split; [lia|split; [lia|]]].
  - apply Forall_map. eapply Forall_impl; [|exact S2].
    intros row Hrow. cbv beta in *. now rewrite length_map.
  - intros k Hk. rewrite nth_error_rev, length_map.
    assert (L : List.length (arange (y0 + 5) (y1 - 5))
                = Z.to_nat (y1 - y0 - 10)).
    { pose proof (arange_length (y0 + 5) (y1 - 5)). lia. }
    rewrite L.
    destruct (Nat.ltb_spec k (Z.to_nat (y1 - y0 - 10))); [|lia].
    rewrite nth_error_map, nth_error_arange_lt by lia.
    cbn [option_map]. do 2 f_equal. lia.
Qed.

End GridFacts.

(** ** Sequences of draw requests and button releases *)

Section ControllerFacts.

Variable Data : Type.
Variable exec : Call Data -> Host Data -> res unit * Host Data.

Implicit Types (h : Host Data) (s : State Data) (rc : RenderCapture Data).

Section Keeps.

Variable P : Host Data -> Prop.
Hypothesis exec_keeps : forall c h, P h -> P (snd (exec c h)).

Lemma keeps_bind {A B} (m : M Data A) (k : A -> M Data B) :
  keeps P m -> (forall x, keeps P (k x)) -> keeps P (bind m k).
Proof.
  intros Hm Hk s H. unfold bind. specialize (Hm s H).
  destruct (m s) as [[x|e] s1]; cbn [snd] in *; [|exact Hm].
  exact (Hk x s1 Hm).
Qed.

Lemma keeps_call (c : Call Data) : keeps P (call exec c).
Proof.
  intros s H. rewrite call_eq. cbn. now apply exec_keeps.
Qed.

Lemma keeps_same {A} (m : M Data A) :
  (forall s, host (snd (m s)) = host s) -> keeps P m.
Proof.
  intros E s H. now rewrite E.
Qed.

Lemma keeps_for_each {A} (l : list A) (body : A -> M Data unit) :
  (forall x, keeps P (body x)) -> keeps P (for_each l body).
Proof.
  intros Hb. induction l as [|x l IH]; cbn [for_each].
  - apply keeps_same. reflexivity.
  - apply keeps_bind; [apply Hb|intros _; exact IH].
Qed.

Lemma keeps_draw : keeps P (AxesCache_draw exec).
Proof.
  unfold AxesCache_draw.
  apply keeps_bind; [apply keeps_same; reflexivity|].
  intros [rc|].
  - apply keeps_bind; [apply keeps_call|intros _].
    apply keeps_bind.
    { intros s H. rewrite RenderCapture_draw_eq. now apply keeps_call. }
    intros _.
    apply keeps_bind; [apply keeps_call|intros _].
    apply keeps_bind; [apply keeps_call|intros _].
    apply keeps_bind; [apply keeps_same; reflexivity|intros h].
    apply keeps_for_each. intros k. apply keeps_call.
  - apply keeps_bind; [apply keeps_call|intros _].
    apply keeps_bind.
    + apply keeps_same. intros s. now rewrite RenderCapture_init_frame.
    + intros rc. apply keeps_same. reflexivity.
Qed.

End Keeps.

(** The canvas delivers an event: nothing but the slot changes, and the
    slot is emptied when a handler is connected under the name. *)
Lemma canvas_process_eq (name : string) s :
  canvas_process name s =
  (Ok tt,
   if existsb (fun c => String.eqb (fst c) name) (callbacks (host s))
   then {| host := host s; log := log s; overview_img := None |}
   else s).
Proof.
  unfold canvas_process, bind, get_host.
  assert (K : forall l (t : State Data),
             for_each l (fun c : string * Handler => run_handler (snd c)) t
             = (Ok tt,
                match l with
                | [] => t
                | _ => {| host := host t; log := log t;
                          overview_img := None |}
                end)).
  { induction l as [|[k []] l IH]; intros t; [reflexivity|].
    cbn [for_each]. unfold bind. cbn. rewrite IH.
    destruct l; reflexivity. }
  rewrite K.
  induction (callbacks (host s)) as [|c l IH]; [reflexivity|].
  cbn [filter existsb].
  destruct (String.eqb (fst c) name); [reflexivity|exact IH].
Qed.

Lemma existsb_connected (cb : list (string * Handler)) :
  In ("button_release_event"%string, reset_lambda) cb ->
  existsb (fun c => String.eqb (fst c) "button_release_event") cb = true.
Proof.
  intros H. apply existsb_exists. eexists. split; [exact H|reflexivity].
Qed.

(** Over a sequence of events the model's host changes through
    rendering calls only. *)
Lemma run_keeps (P : Host Data -> Prop) (es : list Event) s :
  (forall c h, P h -> P (snd (exec c h))) ->
  P (host s) -> P (host (run exec es s)).
Proof.
  intros K. revert s. induction es as [|e es IH]; intros s H; [exact H|].
  cbn [run]. apply IH. destruct e; cbn [step].
  - exact (@keeps_draw P K s H).
  - rewrite canvas_process_eq. cbn [snd].
    destruct (existsb _ _); exact H.
Qed.

(** X8.  Over any sequence of draw requests and button releases the
    controller changes the host outside its view (the scales, the
    collections, the spines, the binding of draw, the renderer and the
    callbacks) through rendering calls only: a property of that part of
    the host that every rendering call preserves still holds at the end,
    whether requests hit or miss, return or raise.  Nothing is said of
    the view limits and the transform. *)
Theorem controller_frame
        (P : string * string * list nat * list (string * nat) * DrawMethod
             * Renderer * list (string * Handler) -> Prop)
        (es : list Event) s :
  (forall c h, P (outside_view h) -> P (outside_view (snd (exec c h)))) ->
  P (outside_view (host s)) -> P (outside_view (host (run exec es s))).
Proof.
  intros K H.
  exact (@run_keeps (fun h => P (outside_view h)) es s K H).
Qed.

Lemma draw_good_miss s :
  steady exec -> good (host s) -> overview_img s = None ->
  good (host (snd (AxesCache_draw exec s))) /\
  slot_of (snd (AxesCache_draw exec s)) = FILLED /\
  full_draws (log (snd (AxesCache_draw exec s)))
  = S (full_draws (log s)).
Proof.
  intros [Kg Kr] G E. rewrite (draw_miss_eq exec s E).
  specialize (Kg Axes_draw _ G). specialize (Kr _ G).
  destruct (exec Axes_draw (host s)) as [r h]. cbn [fst snd] in *.
  subst r.
  destruct (RenderCapture_init_capturable (after_full_draw s h) (proj1 Kg))
    as [rc R].
  rewrite R. cbn [snd host log]. split; [exact Kg|].
  split; [reflexivity|].
  unfold after_full_draw. cbn [log].
  rewrite full_draws_app. cbn. lia.
Qed.

Lemma draw_good_hit s rc :
  steady exec -> good (host s) -> overview_img s = Some rc ->
  good (host (snd (AxesCache_draw exec s))) /\
  slot_of (snd (AxesCache_draw exec s)) = FILLED /\
  full_draws (log (snd (AxesCache_draw exec s))) = full_draws (log s).
Proof.
  intros [Kg _] G E.
  destruct (draw_hit_trace exec s E) as (l & L & _ & F & O & _).
  split; [exact (@keeps_draw (@good Data) Kg s G)|].
  split; [unfold slot_of; now rewrite O|].
  rewrite L, full_draws_app, F. lia.
Qed.

(** X9.  On a steady host (the cache stays connected, the view stays
    capturable, the full draw returns) the controller is the two-state
    machine EMPTY/FILLED: after any sequence of draw requests and button
    releases the slot is filled exactly when the last event was a draw
    request, and the full draw has been invoked once for each draw
    request that found the slot empty, that is for the first draw request
    and for each one that follows a button release. *)
Theorem controller_refines_machine (es : list Event) s :
  steady exec -> good (host s) ->
  slot_of (run exec es s) = fold_left next es (slot_of s) /\
  full_draws (log (run exec es s))
  = (full_draws (log s) + misses (slot_of s) es)%nat.
Proof.
  intros K. revert s. induction es as [|e es IH]; intros s G.
  - cbn. split; [reflexivity|lia].
  - cbn [run fold_left misses]. destruct e; cbn [step next].
    + destruct (overview_img s) as [rc|] eqn:E.
      * destruct (@draw_good_hit s rc K G E) as (G1 & Q1 & F1).
        destruct (IH _ G1) as [Q F]. rewrite Q, F, Q1, F1.
        unfold slot_of. rewrite E. split; [reflexivity|lia].
      * destruct (@draw_good_miss s K G E) as (G1 & Q1 & F1).
        destruct (IH _ G1) as [Q F]. rewrite Q, F, Q1, F1.
        unfold slot_of. rewrite E. split; [reflexivity|lia].
    + rewrite canvas_process_eq. cbn [snd].
      rewrite (existsb_connected _ (proj2 G)).
      match goal with |- context [run exec es ?t] =>
        destruct (IH t G) as [Q F] end.
      rewrite Q, F. split; reflexivity.
Qed.

(** X10.  On a view that is and stays degenerate the cache never fills:
    after any sequence of draw requests and button releases from an
    empty slot the slot is empty, and the full draw has been invoked
    once for every draw request. *)
Theorem degenerate_never_fills (es : list Event) s :
  (forall c h, degenerate h = true -> degenerate (snd (exec c h)) = true) ->
  degenerate (host s) = true -> overview_img s = None ->
  overview_img (run exec es s) = None /\
  full_draws (log (run exec es s))
  = (full_draws (log s) + draw_requests es)%nat.
Proof.
  intros K. revert s. induction es as [|e es IH]; intros s D E.
  - cbn. split; [exact E|]. unfold draw_requests. cbn. lia.
  - cbn [run]. destruct e; cbn [step].
    + assert (X : snd (AxesCache_draw exec s)
                  = after_full_draw s (snd (exec Axes_draw (host s)))).
      { rewrite (draw_miss_eq exec s E).
        pose proof (K Axes_draw _ D) as D1.
        destruct (exec Axes_draw (host s)) as [[u|e] h]; [|reflexivity].
        cbn [snd] in D1. destruct (crop_degenerate h D1) as (e & C & _).
        now rewrite (RenderCapture_init_raise (after_full_draw s h) C). }
      rewrite X.
      destruct (IH (after_full_draw s (snd (exec Axes_draw (host s))))
                  (K Axes_draw _ D) eq_refl) as [O F].
      split; [exact O|]. rewrite F. unfold after_full_draw. cbn [log].
      rewrite full_draws_app. unfold draw_requests. cbn. lia.
    + rewrite canvas_process_eq. cbn [snd].
      assert (X : (if existsb
                        (fun c => String.eqb (fst c) "button_release_event")
                        (callbacks (host s))
                   then {| host := host s; log := log s;
                           overview_img := None |}
                   else s) = s).
      { destruct (existsb _ _); [|reflexivity].
        destruct s as [h l o]. cbn in E. now subst o. }
      rewrite X. destruct (IH s D E) as [O F].
      split; [exact O|]. rewrite F. unfold draw_requests. cbn. lia.
Qed.

(** X11.  Attaching a cache returns and leaves the slot empty, the axes'
    draw bound to the cache, and one more handler connected under
    button_release_event, after those already there; the rest of the
    axes, the renderer and the log are untouched.  From then on a draw
    request to the axes is served by the cache, and the first one invokes
    the full draw, whatever the slot held before. *)
Theorem AxesCache_init_attaches s :
  let s' := snd (AxesCache_init s) in
  fst (AxesCache_init s) = Ok tt /\
  overview_img s' = None /\
  log s' = log s /\
  renderer (host s') = renderer (host s) /\
  axes (host s') = with_axes_draw (axes (host s)) AxesCache_draw_method /\
  callbacks (host s')
  = callbacks (host s) ++ [("button_release_event"%string, reset_lambda)] /\
  axes_draw_request exec s' = AxesCache_draw exec s' /\
  log (snd (axes_draw_request exec s')) = log s ++ [Axes_draw].
Proof.
  cbv zeta.
  unfold AxesCache_init, AxesCache_refresh_on_mouseup, mpl_connect, bind,
    get_host, put_axes, put_callbacks, put_overview_img.
  cbn [fst snd host log overview_img axes renderer callbacks].
  do 7 (split; [reflexivity|]).
  match goal with |- context [axes_draw_request exec ?t] =>
    change (axes_draw_request exec t) with (AxesCache_draw exec t);
    rewrite (draw_miss_log exec t) by reflexivity
  end.
  reflexivity.
Qed.

(** X12.  The canvas delivers an event to the handlers connected under
    its name only, and always returns: an event under a name with no
    handler leaves the whole state as it is (a filled slot stays filled
    through button presses and mouse moves, and through button releases
    when no cache is connected); a button release with the cache
    connected empties the slot and changes neither the host nor the
    log. *)
Theorem canvas_process_by_name (name : string) s :
  (Forall (fun c => fst c <> name) (callbacks (host s)) ->
   canvas_process name s = (Ok tt, s)) /\
  (connected (host s) ->
   canvas_process "button_release_event" s
   = (Ok tt, {| host := host s; log := log s; overview_img := None |})).
Proof.
  split; intros H; rewrite canvas_process_eq.
  - replace (existsb _ _) with false; [reflexivity|].
    symmetry. apply not_true_is_false. intros X.
    apply existsb_exists in X. destruct X as (c & I & X).
    apply String.eqb_eq in X.
    exact (proj1 (Forall_forall _ _) H c I X).
  - now rewrite (existsb_connected _ H).
Qed.

End ControllerFacts.

(** * The further properties at concrete hosts *)

Lemma extract_image_size_witness :
  0 <= height agg /\ 0 <= width agg /\
  Z.of_nat (List.length (buffer_rgba agg)) = height agg * width agg * 4 /\
  (exists im,
      RenderCapture_extract_image agg = Ok im /\
      has_shape im (height agg) (width agg)) /\
  RenderCapture_extract_image
    {| height := 12; width := 12; buffer_rgba := [x01; x02; x03; xff] |}
  = Raise ValueError.
Proof.
  assert (Hh : 0 <= 12) by lia.
  assert (Hb : Z.of_nat (List.length (buffer_rgba agg))
               = height agg * width agg * 4) by (vm_compute; reflexivity).
  split; [exact Hh|]. split; [exact Hh|]. split; [exact Hb|]. split.
  - exact (proj1 (extract_image_size agg Hh Hh) Hb).
  - apply (extract_image_size
             {| height := 12; width := 12;
                buffer_rgba := [x01; x02; x03; xff] |} Hh Hh).
    cbn. lia.
Defined.

Lemma extract_image_flatten_witness :
  exists im,
    RenderCapture_extract_image agg = Ok im /\
    flatten im = buffer_rgba agg.
Proof.
  assert (E : exists im, RenderCapture_extract_image agg = Ok im)
    by (vm_compute; eexists; reflexivity).
  destruct E as [im E]. exists im.
  split; [exact E|exact (extract_image_flatten agg E)].
Defined.

Lemma RenderCapture_crop_pixels_witness :
  exists im0,
    inset_corners (axes (host_of square)) = ((5, 5), (7, 7)) /\
    inset_in_buffer (host_of square) = true /\
    RenderCapture_extract_image (renderer (host_of square)) = Ok im0 /\
    RenderCapture_crop (host_of square)
    = Ok [[(x01, x02, x03, xff); (x01, x02, x03, xff)];
          [(x01, x02, x03, xff); (x01, x02, x03, xff)]] /\
    exists p,
      pixel_at [[(x01, x02, x03, xff); (x01, x02, x03, xff)];
                [(x01, x02, x03, xff); (x01, x02, x03, xff)]] 1 0
      = Some p /\
      pixel_at im0 (Z.to_nat 5 + 1) (Z.to_nat 5 + 0) = Some p.
Proof.
  assert (E : exists im, RenderCapture_extract_image agg = Ok im)
    by (vm_compute; eexists; reflexivity).
  destruct E as [im0 E]. exists im0.
  assert (I : inset_corners (axes (host_of square)) = ((5, 5), (7, 7)))
    by (vm_compute; reflexivity).
  assert (N : inset_in_buffer (host_of square) = true)
    by (vm_compute; reflexivity).
  assert (C : RenderCapture_crop (host_of square)
              = Ok [[(x01, x02, x03, xff); (x01, x02, x03, xff)];
                    [(x01, x02, x03, xff); (x01, x02, x03, xff)]])
    by (vm_compute; reflexivity).
  split; [exact I|]. split; [exact N|]. split; [exact E|].
  split; [exact C|].
  apply (@RenderCapture_crop_pixels Q (host_of square) im0 _ 5 5 7 7
           I N E C 1%nat 0%nat); reflexivity.
Defined.

Lemma RenderCapture_crop_errors_witness :
  device_corners (axes (host_of narrow)) = ((0, 0), (10, 12)) /\
  buffer_ok (renderer (host_of narrow)) = true /\
  (10 - 0 <= 10 \/ 12 - 0 <= 10) /\
  RenderCapture_crop (host_of narrow) = Raise IndexError /\
  (exists im1, RenderCapture_crop (host_of off_canvas) = Ok im1).
Proof.
  assert (Hh : 0 <= 12) by lia.
  assert (E : device_corners (axes (host_of narrow)) = ((0, 0), (10, 12)))
    by (vm_compute; reflexivity).
  assert (E2 : device_corners (axes (host_of off_canvas))
               = ((-10, 0), (12, 12))) by (vm_compute; reflexivity).
  assert (B : buffer_ok agg = true) by (vm_compute; reflexivity).
  assert (D : 10 - 0 <= 10 \/ 12 - 0 <= 10) by (left; lia).
  split; [exact E|]. split; [exact B|]. split; [exact D|]. split.
  - exact (proj1 (proj2 (@RenderCapture_crop_errors Q (host_of narrow)
                           0 0 10 12 Hh Hh E)) B D).
  - apply (proj2 (proj2 (@RenderCapture_crop_errors Q (host_of off_canvas)
                           (-10) 0 12 12 Hh Hh E2)) B); reflexivity.
Defined.

Lemma get_corners_grid_witness :
  device_corners narrow = ((0, 0), (10, 12)) /\
  exists px py dx dy,
    RenderCapture_get_corners narrow = (px, py, dx, dy) /\
    Z.of_nat (List.length px) = 0 /\ Z.of_nat (List.length py) = 2.
Proof.
  assert (E : device_corners narrow = ((0, 0), (10, 12)))
    by (vm_compute; reflexivity).
  split; [exact E|].
  destruct (@get_corners_grid Q narrow 0 0 10 12 E)
    as (px & py & dx & dy & G & Lx & Ly & _).
  exists px, py, dx, dy.
  split; [exact G|]. split; [exact Lx|exact Ly].
Defined.

Lemma RenderCapture_init_mesh_witness :
  device_corners (axes (host (start square))) = ((0, 0), (12, 12)) /\
  capturable (host (start square)) = true /\
  exists rc,
    RenderCapture_init (start square) = (Ok rc, start square) /\
    Z.of_nat (List.length (mesh_X (mesh rc))) = 12 - 0 - 10 /\
    nth_error (mesh_Y (mesh rc)) 0 = Some (6 # 2).
Proof.
  assert (E : device_corners (axes (host (start square)))
              = ((0, 0), (12, 12))) by (vm_compute; reflexivity).
  assert (C : capturable (host (start square)) = true)
    by (vm_compute; reflexivity).
  split; [exact E|]. split; [exact C|].
  destruct (@RenderCapture_init_mesh Q (start square) 0 0 12 12 E C)
    as (rc & data & I & _ & _ & _ & _ & _ & LX & _ & Y).
  exists rc. split; [exact I|]. split; [exact LX|].
  exact (Y 0%nat eq_refl).
Defined.

Lemma controller_frame_witness :
  collections (axes (host (start square))) = [7%nat] /\
  collections
    (axes (host (run exec_ok
                   [draw_request; draw_request; button_release;
                    draw_request] (start square))))
  = [7%nat].
Proof.
  split; [reflexivity|].
  apply (@controller_frame Q exec_ok
           (fun v => snd (fst (fst (fst (fst v)))) = [7%nat])).
  - intros c h H. exact H.
  - reflexivity.
Defined.

Lemma exec_ok_steady : steady exec_ok.
Proof.
  split.
  - intros c h G. exact G.
  - intros h G. reflexivity.
Defined.

Lemma square_good : good (host (start square)).
Proof.
  split; [vm_compute; reflexivity|left; reflexivity].
Defined.

Lemma controller_refines_machine_witness :
  steady exec_ok /\ good (host (start square)) /\
  slot_of (run exec_ok
             [draw_request; draw_request; button_release; button_release;
              draw_request] (start square)) = FILLED /\
  full_draws (log (run exec_ok
                     [draw_request; draw_request; button_release;
                      button_release; draw_request] (start square)))
  = 2%nat.
Proof.
  split; [exact exec_ok_steady|]. split; [exact square_good|].
  exact (@controller_refines_machine Q exec_ok
           [draw_request; draw_request; button_release; button_release;
            draw_request] (start square) exec_ok_steady square_good).
Defined.

Lemma degenerate_never_fills_witness :
  degenerate (host (start narrow)) = true /\
  overview_img (start narrow) = None /\
  overview_img (run exec_ok [draw_request; draw_request; draw_request]
                  (start narrow)) = None /\
  full_draws (log (run exec_ok [draw_request; draw_request; draw_request]
                     (start narrow))) = 3%nat.
Proof.
  assert (D : degenerate (host (start narrow)) = true)
    by (vm_compute; reflexivity).
  split; [exact D|]. split; [reflexivity|].
  exact (@degenerate_never_fills Q exec_ok
           [draw_request; draw_request; draw_request] (start narrow)
           (fun c h H => H) D eq_refl).
Defined.

Lemma canvas_process_by_name_witness :
  Forall (fun c : string * Handler => fst c <> "motion_notify_event"%string)
         (callbacks (host (filled square))) /\
  canvas_process "motion_notify_event" (filled square)
  = (Ok tt, filled square) /\
  connected (host (filled square)) /\
  overview_img (snd (canvas_process "button_release_event" (filled square)))
  = None.
Proof.
  assert (F : Forall (fun c : string * Handler =>
                        fst c <> "motion_notify_event"%string)
                     (callbacks (host (filled square))))
    by (repeat constructor; discriminate).
  assert (C : connected (host (filled square))) by (left; reflexivity).
  destruct (@canvas_process_by_name Q "motion_notify_event" (filled square))
    as [K1 _].
  destruct (@canvas_process_by_name Q "button_release_event" (filled square))
    as [_ K2].
  split; [exact F|]. split; [exact (K1 F)|]. split; [exact C|].
  rewrite (K2 C). reflexivity.
Defined.
